(** * rtp-over-quic: flow multiplexing layer (transport/flow.go) and the
      congestion-control algorithm names (controller)

    A shallow embedding of [transport/flow.go] and of the
    [CongestionControlAlgorithm] conversions.  Go values are modelled as
    follows.

    - [[]byte] is [list byte]; [append(a, b...)] is [a ++ b].  (Go's
      [append] may reuse spare capacity behind [f.varIntID]; it never writes
      the first [len(f.varIntID)] bytes, the only ones [varIntID] exposes, so
      the contents handed to the transport are those of [a ++ b].)
    - [int], [uint16], [uint32], [uint64] are [Z].
    - [map[int]*flow] is [gmap Z flow]; every [*flow] is reachable through
      the map only, so the pointee is stored in the map.
    - An [io.Writer] interface value is [Writer]: the nil interface, a
      [*Dgram], a [*Stream], or a writer of any other dynamic type.
    - What a transport is asked to do is recorded in a trace of [event]s;
      what it answers is given by the [Collaborators].
    - A Go panic is the [Panicked] outcome. *)

From Stdlib Require Import ZArith List Lia.
From Stdlib.Strings Require Import Byte String.
From stdpp Require Import gmap.
Import ListNotations.
Local Open Scope Z_scope.

Abbreviation bytes := (list byte).

(** ** Errors, panics, outcomes *)

(** [errInvalidTransport] is the package's own error value; every other
    error value comes from a collaborator and is kept by its message. *)
Inductive error :=
| errInvalidTransport
| foreignError (msg : string).

Definition error_Error (e : error) : string :=
  match e with
  | errInvalidTransport => "transport does not implement ack/loss callback"
  | foreignError msg => msg
  end.

Inductive panic_value :=
| nilDereference
| noFlowWithPrio (prio : Z)
| varintOverflow (i : Z).

Inductive outcome (A : Type) :=
| Returned (a : A)
| Panicked (v : panic_value).
Arguments Returned {A} a.
Arguments Panicked {A} v.

(** ** Data of the pion/rtp and transport packages used by flow.go *)

(** rtp.Header (pion/rtp), fields as declared there. *)
Record Header := {
  Version : Z;
  Padding : bool;
  Extension : bool;
  Marker : bool;
  PayloadType : Z;
  SequenceNumber : Z;
  Timestamp : Z;
  SSRC : Z;
  CSRC : list Z;
  ExtensionProfile : Z;
  Extensions : list (Z * bytes)
}.

(** The record literal built in [ackCallback]. *)
Record ackedPkt := {
  sentTS : Z;
  ssrc : Z;
  size : Z;
  seqNr : Z
}.

Inductive Writer :=
| nilWriter
| DgramPtr (d : nat)
| StreamPtr (s : nat)
| otherWriter (o : nat).

(** The only [func(bool)] that flow.go ever builds is the closure returned
    by [ackCallback]; it is kept as its captured variables. *)
Record callback := {
  cb_sent : Z;
  cb_ssrc : Z;
  cb_size : Z;
  cb_seqNr : Z
}.

Inductive event :=
| EvWrite (t : Writer) (p : bytes)
| EvWriteWithAckLossCallback (t : Writer) (p : bytes) (cb : callback).

Definition is_plain_write (e : event) : bool :=
  match e with EvWrite _ _ => true | _ => false end.

Definition is_callback_write (e : event) : bool :=
  match e with EvWriteWithAckLossCallback _ _ _ => true | _ => false end.

Definition event_transport (e : event) : Writer :=
  match e with
  | EvWrite t _ => t
  | EvWriteWithAckLossCallback t _ _ => t
  end.


(** The world outside the flow layer: what the transports were asked to do
    so far, and the reading [time.Now()] gives. *)
Record World := {
  trace : list event;
  clock : Z
}.

Definition emit (e : event) (w : World) : World :=
  {| trace := trace w ++ [e]; clock := clock w |}.

(** ** Collaborators

    Packages flow.go calls into and whose code is not part of it:
    quicvarint, pion/rtp, pion/rtcp, the transports behind [io.Writer]
    ([Dgram], [Stream] and others) and the local feedback generator. *)
Class Collaborators := {
  (** bytes [quicvarint.Write] puts into the buffer; [None] where it panics *)
  quicvarint_Write : Z -> option bytes;
  (** [Marshal] and [MarshalSize] of [rtp.Header] *)
  Header_Marshal : Header -> bytes + error;
  Header_MarshalSize : Header -> Z;
  (** [rtcp.Packet] and [rtcp.Marshal] *)
  rtcp_Packet : Type;
  rtcp_Marshal : list rtcp_Packet -> bytes + error;
  (** what a transport answers to [Write], given what it was asked before *)
  Write_result : Writer -> list event -> bytes -> Z * option error;
  (** what [Dgram]/[Stream] answer to [WriteWithAckLossCallback] *)
  WriteWithAckLossCallback_result :
    Writer -> list event -> bytes -> callback -> Z * option error;
  (** the local feedback generator: its state, constructor and [ack] *)
  Metricer : Type;
  FeedbackSink : Type;
  localRFC8888Generator : Type;
  newLocalRFC8888Generator : Z -> Metricer -> FeedbackSink -> localRFC8888Generator;
  localRFC8888Generator_ack : localRFC8888Generator -> ackedPkt -> localRFC8888Generator
}.

(** ** A small monad for code that talks to the world and may panic *)

Definition IO (A : Type) : Type := World -> outcome A * World.

Definition ret {A} (a : A) : IO A := fun w => (Returned a, w).

Definition panic {A} (v : panic_value) : IO A := fun w => (Panicked v, w).

Definition bind {A B} (m : IO A) (k : A -> IO B) : IO B :=
  fun w =>
    match m w with
    | (Returned a, w') => k a w'
    | (Panicked v, w') => (Panicked v, w')
    end.

Notation "x <- m ;; k" := (bind m (fun x => k))
  (at level 100, m at next level, right associativity).

Definition time_Now : IO Z := fun w => (Returned (clock w), w).

Section Flow.
Context `{C : Collaborators}.

(** ** type flow *)

Record flow := {
  transport : Writer;
  useID : bool;
  id : Z;
  varIntID : bytes
}.

Definition newFlow : flow :=
  {| transport := nilWriter; useID := false; id := 0; varIntID := [] |}.

Definition newFlowWithID (i : Z) : outcome flow :=
  match quicvarint_Write i with
  | Some buf =>
      Returned {| transport := nilWriter; useID := true; id := i; varIntID := buf |}
  | None => Panicked (varintOverflow i)
  end.

Definition set_transport (f : flow) (t : Writer) : flow :=
  {| transport := t; useID := useID f; id := id f; varIntID := varIntID f |}.

(** [t.Write(p)] on an interface value: a nil interface panics. *)
Definition Writer_Write (t : Writer) (p : bytes) : IO (Z * option error) :=
  match t with
  | nilWriter => panic nilDereference
  | _ => fun w => (Returned (Write_result t (trace w) p), emit (EvWrite t p) w)
  end.

Definition Writer_WriteWithAckLossCallback (t : Writer) (p : bytes) (cb : callback)
  : IO (Z * option error) :=
  fun w => (Returned (WriteWithAckLossCallback_result t (trace w) p cb),
            emit (EvWriteWithAckLossCallback t p cb) w).

Definition flow_write (f : flow) (payload : bytes) : IO (Z * option error) :=
  let payload := if useID f then varIntID f ++ payload else payload in
  Writer_Write (transport f) payload.

Definition flow_writeWithCallBack (f : flow) (payload : bytes) (cb : callback)
  : IO (Z * option error) :=
  let payload := if useID f then varIntID f ++ payload else payload in
  match transport f with
  | DgramPtr d => Writer_WriteWithAckLossCallback (DgramPtr d) payload cb
  | StreamPtr s => Writer_WriteWithAckLossCallback (StreamPtr s) payload cb
  | _ => ret (0, Some errInvalidTransport)
  end.

(** ** type RTCPFlow *)

Record RTCPFlow := { rtcp_flow : flow }.

Definition NewRTCPFlow : RTCPFlow := {| rtcp_flow := newFlow |}.

Definition NewRTCPFlowWithID (i : Z) : outcome RTCPFlow :=
  match newFlowWithID i with
  | Returned f => Returned {| rtcp_flow := f |}
  | Panicked v => Panicked v
  end.

Definition RTCPFlow_Bind (f : RTCPFlow) (t : Writer) : RTCPFlow :=
  {| rtcp_flow := set_transport (rtcp_flow f) t |}.

Definition RTCPFlow_Write (f : RTCPFlow) (pkts : list rtcp_Packet)
  : IO (Z * option error) :=
  match rtcp_Marshal pkts with
  | inr err => ret (0, Some err)
  | inl buf => flow_write (rtcp_flow f) buf
  end.

(** ** Prioritizer

    The interface has one method; an implementation may keep state of its
    own between calls, so a prioritizer is a state and a step function. *)

Record Prioritizer := {
  prio_state : Type;
  prio_current : prio_state;
  prio_step : prio_state -> Header -> bytes -> Z * prio_state
}.

Definition Prioritize (p : Prioritizer) (h : Header) (b : bytes) : Z * Prioritizer :=
  let (n, s) := prio_step p (prio_current p) h b in
  (n, {| prio_state := prio_state p; prio_current := s; prio_step := prio_step p |}).

Definition PrioritizerFunc (p : Header -> bytes -> Z) : Prioritizer :=
  {| prio_state := unit; prio_current := tt; prio_step := fun _ h b => (p h b, tt) |}.

Definition defaultPriorityFunc : Prioritizer :=
  PrioritizerFunc (fun h b => 0).

(** ** type RTPFlow *)

Record RTPFlow := {
  prioritizer : Prioritizer;
  flows : gmap Z flow;
  localFeedback : option localRFC8888Generator
}.

Definition NewRTPFlow : RTPFlow :=
  let f := newFlow in
  {| prioritizer := defaultPriorityFunc; flows := {[ 0 := f ]}; localFeedback := None |}.

Definition NewRTPFlowWithID (i : Z) : outcome RTPFlow :=
  match newFlowWithID i with
  | Returned f =>
      Returned {| prioritizer := defaultPriorityFunc; flows := {[ 0 := f ]};
                  localFeedback := None |}
  | Panicked v => Panicked v
  end.

(** [go f.localFeedback.Run(ctx)] starts the generator's own task; it does
    not touch the group and is left to the generator. *)
Definition RTPFlow_RunLocalFeedback (f : RTPFlow) (ssrc : Z) (m : Metricer)
    (reportCB : FeedbackSink) : RTPFlow :=
  {| prioritizer := prioritizer f; flows := flows f;
     localFeedback := Some (newLocalRFC8888Generator ssrc m reportCB) |}.

(** [f.flows[0].transport = t]: a missing key yields a nil [*flow]. *)
Definition RTPFlow_Bind (f : RTPFlow) (t : Writer) : outcome RTPFlow :=
  match flows f !! 0 with
  | Some fl =>
      Returned {| prioritizer := prioritizer f;
                  flows := <[ 0 := set_transport fl t ]> (flows f);
                  localFeedback := localFeedback f |}
  | None => Panicked nilDereference
  end.

Definition RTPFlow_BindPriority (f : RTPFlow) (priority : Z) (flowID : Z)
    (t : Writer) : outcome RTPFlow :=
  match newFlowWithID flowID with
  | Returned flow =>
      let flow := set_transport flow t in
      Returned {| prioritizer := prioritizer f;
                  flows := <[ priority := flow ]> (flows f);
                  localFeedback := localFeedback f |}
  | Panicked v => Panicked v
  end.

Definition RTPFlow_SetPrioritizer (f : RTPFlow) (p : Prioritizer) : RTPFlow :=
  {| prioritizer := p; flows := flows f; localFeedback := localFeedback f |}.

Definition RTPFlow_ackCallback (sent : Z) (ssrc : Z) (size : Z) (seqNr : Z) : callback :=
  {| cb_sent := sent; cb_ssrc := ssrc; cb_size := size; cb_seqNr := seqNr |}.

(** Calling the closure built by [ackCallback] with [b]: its body reads
    [f.localFeedback] at the time of the call. *)
Definition callback_call (cb : callback) (b : bool) (f : RTPFlow) : outcome RTPFlow :=
  if b then
    match localFeedback f with
    | Some g =>
        Returned {| prioritizer := prioritizer f; flows := flows f;
                    localFeedback :=
                      Some (localRFC8888Generator_ack g
                              {| sentTS := cb_sent cb; ssrc := cb_ssrc cb;
                                 size := cb_size cb; seqNr := cb_seqNr cb |}) |}
    | None => Panicked nilDereference
    end
  else Returned f.

Definition RTPFlow_Write (f : RTPFlow) (header : Header) (payload : bytes) (w : World)
  : outcome (Z * option error) * RTPFlow * World :=
  match Header_Marshal header with
  | inr err => (Returned (0, Some err), f, w)
  | inl headerBuf =>
      let (prio, p') := Prioritize (prioritizer f) header payload in
      (* the prioritizer object after the call *)
      let f := {| prioritizer := p'; flows := flows f; localFeedback := localFeedback f |} in
      match flows f !! prio with
      | None => (Panicked (noFlowWithPrio prio), f, w)
      | Some flow =>
          match localFeedback f with
          | Some _ =>
              let (r, w') :=
                (now <- time_Now ;;
                 flow_writeWithCallBack flow (headerBuf ++ payload)
                   (RTPFlow_ackCallback now (SSRC header)
                      (Header_MarshalSize header) (SequenceNumber header))) w in
              (r, f, w')
          | None =>
              let (r, w') := flow_write flow (headerBuf ++ payload) w in
              (r, f, w')
          end
      end
  end.

(** ** Histories of a group

    What a caller, the transports and time can do to a group, one step at
    a time; a history stops at the first panic. *)

Inductive op :=
| OpBind (t : Writer)
| OpBindPriority (priority : Z) (flowID : Z) (t : Writer)
| OpSetPrioritizer (p : Prioritizer)
| OpRunLocalFeedback (ssrc : Z) (m : Metricer) (reportCB : FeedbackSink)
| OpWrite (header : Header) (payload : bytes)
| OpNotify (cb : callback) (b : bool)
| OpTick (now : Z).

Definition is_RunLocalFeedback (o : op) : bool :=
  match o with OpRunLocalFeedback _ _ _ => true | _ => false end.

Definition lift (r : outcome RTPFlow) (f : RTPFlow) (w : World)
  : option panic_value * RTPFlow * World :=
  match r with
  | Returned f' => (None, f', w)
  | Panicked v => (Some v, f, w)
  end.

Definition step (o : op) (f : RTPFlow) (w : World)
  : option panic_value * RTPFlow * World :=
  match o with
  | OpBind t => lift (RTPFlow_Bind f t) f w
  | OpBindPriority priority flowID t => lift (RTPFlow_BindPriority f priority flowID t) f w
  | OpSetPrioritizer p => (None, RTPFlow_SetPrioritizer f p, w)
  | OpRunLocalFeedback ssrc m reportCB => (None, RTPFlow_RunLocalFeedback f ssrc m reportCB, w)
  | OpWrite header payload =>
      match RTPFlow_Write f header payload w with
      | (Returned _, f', w') => (None, f', w')
      | (Panicked v, f', w') => (Some v, f', w')
      end
  | OpNotify cb b => lift (callback_call cb b f) f w
  | OpTick now => (None, f, {| trace := trace w; clock := now |})
  end.

Fixpoint run (ops : list op) (f : RTPFlow) (w : World)
  : option panic_value * RTPFlow * World :=
  match ops with
  | [] => (None, f, w)
  | o :: ops' =>
      match step o f w with
      | (None, f', w') => run ops' f' w'
      | stopped => stopped
      end
  end.

(** ** Vocabulary of the statements *)

(** The bytes a sub-flow hands to its transport for [payload]. *)
Definition framed (f : flow) (payload : bytes) : bytes :=
  if useID f then varIntID f ++ payload else payload.

(** Transports whose dynamic type offers [WriteWithAckLossCallback]. *)
Definition supports_callback (t : Writer) : bool :=
  match t with
  | DgramPtr _ | StreamPtr _ => true
  | _ => false
  end.

(** Groups as the two constructors return them. *)
Definition freshly_created (g : RTPFlow) : Prop :=
  g = NewRTPFlow \/ exists i, NewRTPFlowWithID i = Returned g.

(** A group with a single sub-flow, at class 0, that adds no prefix. *)
Definition single_unidentified_default (g : RTPFlow) : Prop :=
  exists fl, flows g = {[ 0 := fl ]} /\ useID fl = false /\
             forall payload, framed fl payload = payload.

Definition always_class_0 (p : Prioritizer) : Prop :=
  forall h b, Prioritize p h b = (0, p).

(** A [Write] that hands a packet to some transport's
    [WriteWithAckLossCallback]. *)
Definition performs_callback_write (f : RTPFlow) (header : Header) (payload : bytes)
    (w : World) : Prop :=
  exists r f' t pkt cb,
    RTPFlow_Write f header payload w =
      (r, f', emit (EvWriteWithAckLossCallback t pkt cb) w).

(** The record the closure passes to [ack]. *)
Definition callback_record (cb : callback) : ackedPkt :=
  {| sentTS := cb_sent cb; ssrc := cb_ssrc cb; size := cb_size cb; seqNr := cb_seqNr cb |}.

(** The transports a history hands to the group. *)
Definition op_transports (o : op) : list Writer :=
  match o with
  | OpBind t => [t]
  | OpBindPriority _ _ t => [t]
  | _ => []
  end.

Definition bound_transports (ops : list op) : list Writer :=
  concat (map op_transports ops).

Definition is_SetPrioritizer (o : op) : bool :=
  match o with OpSetPrioritizer _ => true | _ => false end.

Definition is_Write (o : op) : bool :=
  match o with OpWrite _ _ => true | _ => false end.

Definition count_writes (ops : list op) : nat :=
  length (filter (fun o => is_Write o = true) ops).

(** A history made of callback calls only. *)
Definition notifications (ns : list (callback * bool)) : list op :=
  map (fun n : callback * bool => OpNotify (fst n) (snd n)) ns.

(** What the generator has received after the calls [ns]. *)
Definition acknowledged (g : localRFC8888Generator) (ns : list (callback * bool))
  : localRFC8888Generator :=
  fold_left (fun (g : localRFC8888Generator) (n : callback * bool) =>
               if snd n then localRFC8888Generator_ack g (callback_record (fst n))
               else g) ns g.

End Flow.

(** ** package controller: congestion-control algorithm names *)

Module controller.

Definition CongestionControlAlgorithm := Z.

Definition Reno : CongestionControlAlgorithm := 0.
Definition Cubic : CongestionControlAlgorithm := 1.
Definition BBR : CongestionControlAlgorithm := 2.
Definition SCReAM : CongestionControlAlgorithm := 3.
Definition GCC : CongestionControlAlgorithm := 4.

(** A line handed to [log.Printf]: the format and its [%v] operand as
    formatted. *)
Record log_line := log_Printf { log_format : string; log_operand : string }.

Definition CongestionControlAlgorithmFromString (a : string)
  : CongestionControlAlgorithm * list log_line :=
  if String.eqb a "reno" then (Reno, [])
  else if String.eqb a "cubic" then (Cubic, [])
  else if String.eqb a "bbr" then (BBR, [])
  else if String.eqb a "scream" then (SCReAM, [])
  else if String.eqb a "gcc" then (GCC, [])
  else (Reno, [log_Printf "warning, unknown algorithm: %v, using default ('reno')" a]).

(** In the default case [log.Printf] formats [a] with [%v]; [a] has a
    [String] method, so fmt calls [a.String()] again.  The recursion is
    bounded here by [fuel]; [None] is a call that has not returned. *)
Fixpoint CongestionControlAlgorithm_String (fuel : nat) (a : CongestionControlAlgorithm)
  : option (string * list log_line) :=
  match fuel with
  | O => None
  | S fuel' =>
      if a =? Reno then Some ("reno"%string, [])
      else if a =? Cubic then Some ("cubic"%string, [])
      else if a =? BBR then Some ("bbr"%string, [])
      else if a =? SCReAM then Some ("scream"%string, [])
      else if a =? GCC then Some ("gcc"%string, [])
      else
        match CongestionControlAlgorithm_String fuel' a with
        | Some (s, l) =>
            Some ("none"%string, l ++ [log_Printf "warning, undefined algorithm: %v" s])
        | None => None
        end
  end.

Definition defined_name (s : string) : bool :=
  existsb (String.eqb s) ["reno"; "cubic"; "bbr"; "scream"; "gcc"]%string.

End controller.

(** ** package cmd: RTCP feedback names and the choice of a server *)

Module cmd.

Definition RTCPFeedback := Z.

Definition RTCP_NONE : RTCPFeedback := 0.
Definition RTCP_RFC8888 : RTCPFeedback := 1.
Definition RTCP_RFC8888_PION : RTCPFeedback := 2.
Definition RTCP_TWCC : RTCPFeedback := 3.

Inductive log_arg :=
| arg_int (z : Z)
| arg_string (s : string).

Record log_line := log_Printf { log_format : string; log_operand : log_arg }.

Definition newline : string := String (Ascii.ascii_of_nat 10) EmptyString.

Definition unknown_feedback_format : string :=
  ("WARNING: unknown RTCP Congestion Control Feedback type: %v, using default ('none')"
   ++ newline)%string.

(** The default case logs [int(f)], a plain integer. *)
Definition RTCPFeedback_String (f : RTCPFeedback) : string * list log_line :=
  if f =? RTCP_NONE then ("none"%string, [])
  else if f =? RTCP_RFC8888 then ("rfc8888"%string, [])
  else if f =? RTCP_RFC8888_PION then ("rfc8888-pion"%string, [])
  else if f =? RTCP_TWCC then ("twcc"%string, [])
  else ("none"%string, [log_Printf unknown_feedback_format (arg_int f)]).

Definition getRTCP (choice : string) : RTCPFeedback * list log_line :=
  if String.eqb choice "none" then (RTCP_NONE, [])
  else if String.eqb choice "rfc8888" then (RTCP_RFC8888, [])
  else if String.eqb choice "rfc8888-pion" then (RTCP_RFC8888_PION, [])
  else if String.eqb choice "twcc" then (RTCP_TWCC, [])
  else (RTCP_NONE, [log_Printf unknown_feedback_format (arg_string choice)]).

Definition feedback_name (s : string) : bool :=
  existsb (String.eqb s) ["none"; "rfc8888"; "rfc8888-pion"; "twcc"]%string.

(** [getServer] ends in a call to a constructor of package controller;
    the call is kept as the constructor and its arguments. *)
Inductive server_mode := DGRAM | STREAM | PRIORITIZED.

Section GetServer.
Variables (MediaSinkFactory ServerOption : Type) (MTU : Z -> ServerOption).

Inductive server_call :=
| NewQUICServer (mf : MediaSinkFactory) (mode : server_mode) (options : list ServerOption)
| NewUDPServer (mf : MediaSinkFactory) (options : list ServerOption)
| NewTCPServer (mf : MediaSinkFactory) (options : list ServerOption).

Inductive cmd_error := errInvalidTransport.

Definition getServer (transport : string) (mf : MediaSinkFactory)
    (options : list ServerOption) : server_call + cmd_error :=
  if String.eqb transport "quic" || String.eqb transport "quic-dgram" then
    inl (NewQUICServer mf DGRAM options)
  else if String.eqb transport "quic-stream" then
    let options := options ++ [MTU 1000000] in
    inl (NewQUICServer mf STREAM options)
  else if String.eqb transport "quic-prio" then
    inl (NewQUICServer mf PRIORITIZED options)
  else if String.eqb transport "udp" then
    inl (NewUDPServer mf options)
  else if String.eqb transport "tcp" then
    inl (NewTCPServer mf options)
  else inr errInvalidTransport.

Definition call_options (c : server_call) : list ServerOption :=
  match c with
  | NewQUICServer _ _ options => options
  | NewUDPServer _ options => options
  | NewTCPServer _ options => options
  end.

Definition server_name (s : string) : bool :=
  existsb (String.eqb s)
    ["quic"; "quic-dgram"; "quic-stream"; "quic-prio"; "udp"; "tcp"]%string.

End GetServer.

End cmd.

(** ** Stand-ins for the collaborators

    Small executable collaborators on which the statements below are run
    on concrete inputs: QUIC's variable-length integers as quicvarint
    writes them, a codec for RTP headers without extension, RTCP packets
    given by their encoding, transports that accept every write, and a
    generator that keeps the records it was given. *)

Module Sample.

Definition u8 (z : Z) : byte :=
  match Byte.of_N (Z.to_N (z mod 256)) with
  | Some b => b
  | None => x00
  end.

Definition varint_bytes (i : Z) : option bytes :=
  if i <=? 63 then Some [u8 i]
  else if i <=? 16383 then Some [u8 (Z.lor (Z.shiftr i 8) 64); u8 i]
  else if i <=? 1073741823 then
    Some [u8 (Z.lor (Z.shiftr i 24) 128); u8 (Z.shiftr i 16); u8 (Z.shiftr i 8); u8 i]
  else if i <=? 4611686018427387903 then
    Some [u8 (Z.lor (Z.shiftr i 56) 192); u8 (Z.shiftr i 48); u8 (Z.shiftr i 40);
          u8 (Z.shiftr i 32); u8 (Z.shiftr i 24); u8 (Z.shiftr i 16);
          u8 (Z.shiftr i 8); u8 i]
  else None.

Definition be16 (z : Z) : bytes := [u8 (Z.shiftr z 8); u8 z].
Definition be32 (z : Z) : bytes :=
  [u8 (Z.shiftr z 24); u8 (Z.shiftr z 16); u8 (Z.shiftr z 8); u8 z].

Definition fixed_header_size (h : Header) : Z :=
  12 + 4 * Z.of_nat (length (CSRC h)).

Definition marshal_fixed_header (h : Header) : bytes + error :=
  if Extension h then inr (foreignError "short buffer")
  else
    inl ([u8 (Z.lor (Z.shiftl (Version h) 6)
                (Z.lor (if Padding h then 32 else 0) (Z.of_nat (length (CSRC h)))));
          u8 (Z.lor (if Marker h then 128 else 0) (PayloadType h))]
         ++ be16 (SequenceNumber h) ++ be32 (Timestamp h) ++ be32 (SSRC h)
         ++ concat (map be32 (CSRC h))).

Fixpoint marshal_raw_packets (pkts : list (option bytes)) : bytes + error :=
  match pkts with
  | [] => inl []
  | None :: _ => inr (foreignError "invalid header")
  | Some b :: rest =>
      match marshal_raw_packets rest with
      | inl bs => inl (b ++ bs)
      | inr e => inr e
      end
  end.

#[export] Instance collaborators : Collaborators := {|
  quicvarint_Write := varint_bytes;
  Header_Marshal := marshal_fixed_header;
  Header_MarshalSize := fixed_header_size;
  rtcp_Packet := option bytes;
  rtcp_Marshal := marshal_raw_packets;
  Write_result := fun _ _ p => (Z.of_nat (length p), None);
  WriteWithAckLossCallback_result := fun _ _ p _ => (Z.of_nat (length p), None);
  Metricer := unit;
  FeedbackSink := unit;
  localRFC8888Generator := list ackedPkt;
  newLocalRFC8888Generator := fun _ _ _ => [];
  localRFC8888Generator_ack := fun g p => g ++ [p]
|}.

Definition header0 : Header :=
  {| Version := 2; Padding := false; Extension := false; Marker := true;
     PayloadType := 96; SequenceNumber := 1; Timestamp := 3000;
     SSRC := 3735928559; CSRC := []; ExtensionProfile := 0; Extensions := [] |}.

Definition header_ext : Header :=
  {| Version := 2; Padding := false; Extension := true; Marker := false;
     PayloadType := 96; SequenceNumber := 2; Timestamp := 6000;
     SSRC := 3735928559; CSRC := []; ExtensionProfile := 4660;
     Extensions := [(0, [x01])] |}.

Definition world0 : World := {| trace := []; clock := 1000 |}.

(** Class 1 for packets with the marker bit, class 0 for the others. *)
Definition marker_first : Prioritizer :=
  PrioritizerFunc (fun h b => if Marker h then 1 else 0).

Definition flow7 : flow :=
  {| transport := nilWriter; useID := true; id := 7; varIntID := [x07] |}.

Definition flow5 : flow :=
  {| transport := nilWriter; useID := true; id := 5; varIntID := [x05] |}.

(** Classes 0 and 1 on two transports. *)
Definition group_two_classes : RTPFlow :=
  {| prioritizer := marker_first;
     flows := <[ 1 := set_transport flow5 (otherWriter 1) ]>
                {[ 0 := set_transport newFlow (otherWriter 0) ]};
     localFeedback := None |}.

(** The same policy with class 0 only. *)
Definition group_one_class : RTPFlow :=
  {| prioritizer := marker_first;
     flows := {[ 0 := set_transport newFlow (otherWriter 0) ]};
     localFeedback := None |}.

(** RTCP packets: one that marshals followed by one that does not, and
    one that marshals. *)
Definition packets_bad : list rtcp_Packet :=
  [Some [x80]; None] : list (option bytes).

Definition packets_ok : list rtcp_Packet :=
  [Some [x80; xc9]] : list (option bytes).

Definition header0_bytes : bytes :=
  [x80; xe0; x00; x01; x00; x00; x0b; xb8; xde; xad; xbe; xef].

End Sample.

(** * Properties *)

Section FlowProperties.
Context `{C : Collaborators}.

(** ** Sub-flows *)

Lemma Writer_Write_bound (t : Writer) (p : bytes) (w : World) :
  t <> nilWriter ->
  Writer_Write t p w = (Returned (Write_result t (trace w) p), emit (EvWrite t p) w).
Proof. destruct t; simpl; congruence. Qed.

Lemma flow_write_framed (f : flow) (payload : bytes) (w : World) :
  flow_write f payload w = Writer_Write (transport f) (framed f payload) w.
Proof. reflexivity. Qed.

Lemma newFlowWithID_inv (i : Z) (f : flow) :
  newFlowWithID i = Returned f ->
  exists enc, quicvarint_Write i = Some enc /\
    f = {| transport := nilWriter; useID := true; id := i; varIntID := enc |}.
Proof.
  unfold newFlowWithID. destruct (quicvarint_Write i) as [enc|]; [|discriminate].
  intros [= <-]. by exists enc.
Qed.

(** C1. A sub-flow built by [newFlowWithID i] and bound to a transport
    hands that transport's [Write] exactly the varint encoding of [i]
    followed by the payload, once; a sub-flow built by [newFlow] hands it
    exactly the payload. *)
Theorem flow_write_transmits (i : Z) (f : flow) (t : Writer) (P : bytes) (w : World) :
  t <> nilWriter ->
  (newFlowWithID i = Returned f ->
   exists enc, quicvarint_Write i = Some enc /\
     flow_write (set_transport f t) P w =
       (Returned (Write_result t (trace w) (enc ++ P)), emit (EvWrite t (enc ++ P)) w))
  /\ flow_write (set_transport newFlow t) P w =
       (Returned (Write_result t (trace w) P), emit (EvWrite t P) w).
Proof.
  intros Ht. split.
  - intros (enc & Henc & ->)%newFlowWithID_inv. exists enc. split; [done|].
    rewrite flow_write_framed. simpl. by apply Writer_Write_bound.
  - rewrite flow_write_framed. simpl. by apply Writer_Write_bound.
Qed.

(** C3. On a sub-flow whose transport is neither a [Dgram] nor a [Stream]
    (the two that take a delivery callback), [writeWithCallBack] returns 0
    and [errInvalidTransport], and the world is as before: nothing was
    handed to the transport. *)
Theorem flow_writeWithCallBack_unsupported (f : flow) (payload : bytes) (cb : callback)
    (w : World) :
  supports_callback (transport f) = false ->
  flow_writeWithCallBack f payload cb w = (Returned (0, Some errInvalidTransport), w)
  /\ error_Error errInvalidTransport = "transport does not implement ack/loss callback"%string.
Proof.
  intros Ht. split; [|reflexivity].
  unfold flow_writeWithCallBack. by destruct (transport f).
Qed.

(** ** RTCP sub-flow *)

(** C8. [RTCPFlow.Write] on a bound sub-flow: when [rtcp.Marshal] gives
    [buf], the transport's plain [Write] receives [buf], prefixed by the
    encoded id when the sub-flow was made by [NewRTCPFlowWithID], and no
    callback write takes place; when [rtcp.Marshal] fails, the result is 0
    and that error, and the world is as before. *)
Theorem RTCPFlow_Write_plain (f0 : RTCPFlow) (t : Writer) (pkts : list rtcp_Packet)
    (w : World) :
  t <> nilWriter ->
  (forall err, rtcp_Marshal pkts = inr err ->
     RTCPFlow_Write (RTCPFlow_Bind f0 t) pkts w = (Returned (0, Some err), w))
  /\ (forall buf, rtcp_Marshal pkts = inl buf ->
       RTCPFlow_Write (RTCPFlow_Bind f0 t) pkts w =
         (Returned (Write_result t (trace w) (framed (rtcp_flow f0) buf)),
          emit (EvWrite t (framed (rtcp_flow f0) buf)) w)
       /\ (f0 = NewRTCPFlow -> framed (rtcp_flow f0) buf = buf)
       /\ (forall i, NewRTCPFlowWithID i = Returned f0 ->
              exists enc, quicvarint_Write i = Some enc /\
                          framed (rtcp_flow f0) buf = enc ++ buf)).
Proof.
  intros Ht. split.
  - intros err Herr. unfold RTCPFlow_Write. by rewrite Herr.
  - intros buf Hbuf. split; [|split].
    + unfold RTCPFlow_Write. rewrite Hbuf, flow_write_framed. simpl.
      by apply Writer_Write_bound.
    + by intros ->.
    + intros i Hi. unfold NewRTCPFlowWithID in Hi.
      destruct (newFlowWithID i) as [fl|] eqn:Hfl; [|discriminate].
      injection Hi as <-. apply newFlowWithID_inv in Hfl as (enc & Henc & ->).
      by exists enc.
Qed.

(** ** Prioritized group: marshalling failure *)

(** C9. When [header.Marshal] fails, [RTPFlow.Write] returns 0 and the
    marshal error; the group (prioritizer state, sub-flows, generator) and
    the world (trace of transport calls) are as before. *)
Theorem RTPFlow_Write_marshal_error (f : RTPFlow) (header : Header) (payload : bytes)
    (w : World) (err : error) :
  Header_Marshal header = inr err ->
  RTPFlow_Write f header payload w = (Returned (0, Some err), f, w).
Proof. intros Herr. unfold RTPFlow_Write. by rewrite Herr. Qed.

(** ** What a sub-flow write adds to the trace *)

Lemma flow_write_events (fl : flow) (p : bytes) (w w' : World)
    (r : outcome (Z * option error)) :
  flow_write fl p w = (r, w') ->
  clock w' = clock w /\
  exists evs, trace w' = trace w ++ evs /\
    Forall (fun e => e = EvWrite (transport fl) (framed fl p)) evs.
Proof.
  rewrite flow_write_framed. destruct (transport fl) eqn:Ht; simpl;
    intros [= <- <-]; (split; [done|]).
  - exists []. by rewrite app_nil_r.
  - eexists [_]. split; [done|]. by repeat constructor.
  - eexists [_]. split; [done|]. by repeat constructor.
  - eexists [_]. split; [done|]. by repeat constructor.
Qed.

Lemma flow_writeWithCallBack_events (fl : flow) (p : bytes) (cb : callback)
    (w w' : World) (r : outcome (Z * option error)) :
  flow_writeWithCallBack fl p cb w = (r, w') ->
  clock w' = clock w /\
  exists evs, trace w' = trace w ++ evs /\
    Forall (fun e => e = EvWriteWithAckLossCallback (transport fl) (framed fl p) cb) evs.
Proof.
  unfold flow_writeWithCallBack. destruct (transport fl) eqn:Ht; simpl;
    intros [= <- <-]; (split; [done|]).
  - exists []. by rewrite app_nil_r.
  - eexists [_]. split; [done|]. by repeat constructor.
  - eexists [_]. split; [done|]. by repeat constructor.
  - exists []. by rewrite app_nil_r.
Qed.

(** ** Prioritized group: routing *)

(** [RTPFlow.Write] after a successful marshal, as the write of the
    sub-flow found at the class the prioritizer returned. *)
Lemma RTPFlow_Write_marshalled (f : RTPFlow) (header : Header) (payload : bytes)
    (w : World) (headerBuf : bytes) (prio : Z) (p' : Prioritizer) :
  Header_Marshal header = inl headerBuf ->
  Prioritize (prioritizer f) header payload = (prio, p') ->
  let f' := {| prioritizer := p'; flows := flows f; localFeedback := localFeedback f |} in
  RTPFlow_Write f header payload w =
    match flows f !! prio with
    | None => (Panicked (noFlowWithPrio prio), f', w)
    | Some fl =>
        let (r, w') :=
          match localFeedback f with
          | Some _ =>
              flow_writeWithCallBack fl (headerBuf ++ payload)
                (RTPFlow_ackCallback (clock w) (SSRC header)
                   (Header_MarshalSize header) (SequenceNumber header)) w
          | None => flow_write fl (headerBuf ++ payload) w
          end in
        (r, f', w')
    end.
Proof.
  intros Hm Hp. unfold RTPFlow_Write. rewrite Hm, Hp. simpl.
  destruct (flows f !! prio) as [fl|]; [|done].
  by destruct (localFeedback f).
Qed.


(** ** Prioritized group: the delivery callback *)

(** The record an instrumented write passes on when its callback is
    called with [true]. *)
Lemma RTPFlow_Write_ack_record (f : RTPFlow) (header : Header) (payload : bytes)
    (w : World) (headerBuf : bytes) (prio : Z) (p' : Prioritizer) (fl : flow)
    (g : localRFC8888Generator) :
  Header_Marshal header = inl headerBuf ->
  Prioritize (prioritizer f) header payload = (prio, p') ->
  flows f !! prio = Some fl ->
  supports_callback (transport fl) = true ->
  localFeedback f = Some g ->
  exists r f' cb,
    RTPFlow_Write f header payload w =
      (r, f', emit (EvWriteWithAckLossCallback (transport fl)
                      (framed fl (headerBuf ++ payload)) cb) w) /\
    exists f'', callback_call cb true f' = Returned f'' /\
      localFeedback f'' =
        Some (localRFC8888Generator_ack g
                {| sentTS := clock w; ssrc := SSRC header;
                   size := Header_MarshalSize header;
                   seqNr := SequenceNumber header |}).
Proof.
  intros Hm Hp Hfl Ht Hg.
  rewrite (RTPFlow_Write_marshalled f header payload w _ _ _ Hm Hp), Hfl, Hg.
  unfold flow_writeWithCallBack, framed.
  destruct (transport fl) eqn:Htr; try discriminate; simpl;
    do 3 eexists; (split; [reflexivity|]);
    unfold callback_call; simpl; eexists; split; reflexivity.
Qed.

(** C5. Calling the closure built by [ackCallback] with [false] returns
    without touching anything: the group, and with it the generator, is as
    before, and so is the world. *)
Theorem ackCallback_false_no_record (f : RTPFlow) (w : World)
    (sent ssrc size seqNr : Z) :
  let cb := RTPFlow_ackCallback sent ssrc size seqNr in
  callback_call cb false f = Returned f
  /\ step (OpNotify cb false) f w = (None, f, w).
Proof. simpl. split; reflexivity. Qed.

(** ** Histories: what every step keeps *)

Lemma RTPFlow_Write_keeps (f f' : RTPFlow) (header : Header) (payload : bytes)
    (w w' : World) (r : outcome (Z * option error)) :
  RTPFlow_Write f header payload w = (r, f', w') ->
  flows f' = flows f /\ localFeedback f' = localFeedback f /\
  exists evs, trace w' = trace w ++ evs /\
    (localFeedback f = None -> Forall (fun e => is_plain_write e = true) evs) /\
    (is_Some (localFeedback f) -> Forall (fun e => is_callback_write e = true) evs).
Proof.
  destruct (Header_Marshal header) as [headerBuf|err] eqn:Hm.
  - destruct (Prioritize (prioritizer f) header payload) as [prio p'] eqn:Hp.
    rewrite (RTPFlow_Write_marshalled f header payload w _ _ _ Hm Hp). simpl.
    destruct (flows f !! prio) as [fl|].
    + destruct (localFeedback f) as [g|] eqn:Hg.
      * destruct (flow_writeWithCallBack _ _ _ _) as [r0 w0] eqn:Hcall.
        intros [= <- <- <-]. simpl. do 2 (split; [done|]).
        apply flow_writeWithCallBack_events in Hcall as (_ & evs & Htr & Hall).
        exists evs. split; [done|]. split; [done|]. intros _.
        eapply Forall_impl; [exact Hall|]. by intros e ->.
      * destruct (flow_write _ _ _) as [r0 w0] eqn:Hcall.
        intros [= <- <- <-]. simpl. do 2 (split; [done|]).
        apply flow_write_events in Hcall as (_ & evs & Htr & Hall).
        exists evs. split; [done|]. split; [|by intros [? ?]]. intros _.
        eapply Forall_impl; [exact Hall|]. by intros e ->.
    + intros [= <- <- <-]. simpl. do 2 (split; [done|]).
      exists []. rewrite app_nil_r. by repeat split.
  - unfold RTPFlow_Write. rewrite Hm.
    intros [= <- <- <-]. do 2 (split; [done|]).
    exists []. rewrite app_nil_r. by repeat split.
Qed.

Lemma step_keeps (o : op) (f f' : RTPFlow) (w w' : World) (v : option panic_value) :
  step o f w = (v, f', w') ->
  (is_Some (flows f !! 0) -> is_Some (flows f' !! 0)) /\
  (is_Some (localFeedback f) -> is_Some (localFeedback f')) /\
  (is_RunLocalFeedback o = false -> localFeedback f = None -> localFeedback f' = None) /\
  exists evs, trace w' = trace w ++ evs /\
    (localFeedback f = None -> Forall (fun e => is_plain_write e = true) evs) /\
    (is_Some (localFeedback f) -> Forall (fun e => is_callback_write e = true) evs).
Proof.
  assert (Hnil : forall w0 : World, exists evs : list event,
             trace w0 = trace w0 ++ evs /\
             (localFeedback f = None -> Forall (fun e => is_plain_write e = true) evs) /\
             (is_Some (localFeedback f) ->
              Forall (fun e => is_callback_write e = true) evs)).
  { intros w0. exists []. rewrite app_nil_r. by repeat split. }
  destruct o as [t|priority flowID t|p|ssrc0 m reportCB|header payload|cb b|now]; simpl.
  - unfold RTPFlow_Bind. destruct (flows f !! 0) as [fl|] eqn:H0;
      intros [= <- <- <-]; simpl; repeat split; auto;
      try (by intros [? ?]).
    intros _. rewrite lookup_insert_eq. by eexists.
  - unfold RTPFlow_BindPriority. destruct (newFlowWithID flowID) as [fl|];
      intros [= <- <- <-]; simpl; repeat split; auto.
    intros H0. rewrite lookup_insert. case_decide; [by eexists|done].
  - intros [= <- <- <-]; simpl; repeat split; auto.
  - intros [= <- <- <-]; simpl; repeat split; auto; try discriminate.
  - destruct (RTPFlow_Write f header payload w) as [[r f1] w1] eqn:HW.
    apply RTPFlow_Write_keeps in HW as (Hfl & Hlf & Hev).
    destruct r; intros [= <- <- <-]; rewrite Hfl, Hlf; repeat split; auto.
  - unfold callback_call. destruct b; [destruct (localFeedback f) as [g|] eqn:Hg|];
      intros [= <- <- <-]; simpl; repeat split; auto; try discriminate;
      try (by intros [? ?]).
  - intros [= <- <- <-]; simpl; repeat split; auto.
Qed.

Lemma run_keeps_default (ops : list op) (f f' : RTPFlow) (w w' : World)
    (v : option panic_value) :
  run ops f w = (v, f', w') ->
  is_Some (flows f !! 0) -> is_Some (flows f' !! 0).
Proof.
  revert f w. induction ops as [|o ops IH]; intros f w; simpl.
  - by intros [= <- <- <-].
  - destruct (step o f w) as [[[v1|] f1] w1] eqn:Hs; intros Hr H0.
    + injection Hr as <- <- <-. by apply (step_keeps _ _ _ _ _ _ Hs).
    + eapply IH; [exact Hr|]. by apply (step_keeps _ _ _ _ _ _ Hs).
Qed.

Lemma run_plain (ops : list op) (f f' : RTPFlow) (w w' : World)
    (v : option panic_value) :
  Forall (fun o => is_RunLocalFeedback o = false) ops ->
  localFeedback f = None ->
  run ops f w = (v, f', w') ->
  localFeedback f' = None /\
  exists evs, trace w' = trace w ++ evs /\
    Forall (fun e => is_plain_write e = true) evs.
Proof.
  intros Hops. revert f w. induction Hops as [|o ops Ho Hops IH]; intros f w Hf; simpl.
  - intros [= <- <- <-]. split; [done|]. exists []. by rewrite app_nil_r.
  - destruct (step o f w) as [[[v1|] f1] w1] eqn:Hs; intros Hr;
      destruct (step_keeps _ _ _ _ _ _ Hs) as (_ & _ & Hnone & evs & Htr & Hpl & _).
    + injection Hr as <- <- <-. split; [by apply Hnone|]. exists evs. split; [done|].
      by apply Hpl.
    + destruct (IH f1 w1 (Hnone Ho Hf) Hr) as (Hf' & evs' & Htr' & Hpl').
      split; [done|]. exists (evs ++ evs'). rewrite Htr', Htr, app_assoc.
      split; [done|]. apply Forall_app. split; [by apply Hpl|done].
Qed.

Lemma run_callback (ops : list op) (f f' : RTPFlow) (w w' : World)
    (v : option panic_value) :
  is_Some (localFeedback f) ->
  run ops f w = (v, f', w') ->
  is_Some (localFeedback f') /\
  exists evs, trace w' = trace w ++ evs /\
    Forall (fun e => is_callback_write e = true) evs.
Proof.
  revert f w. induction ops as [|o ops IH]; intros f w Hf; simpl.
  - intros [= <- <- <-]. split; [done|]. exists []. by rewrite app_nil_r.
  - destruct (step o f w) as [[[v1|] f1] w1] eqn:Hs; intros Hr;
      destruct (step_keeps _ _ _ _ _ _ Hs) as (_ & Hsome & _ & evs & Htr & _ & Hcb).
    + injection Hr as <- <- <-. split; [by apply Hsome|]. exists evs. split; [done|].
      by apply Hcb.
    + destruct (IH f1 w1 (Hsome Hf) Hr) as (Hf' & evs' & Htr' & Hcb').
      split; [done|]. exists (evs ++ evs'). rewrite Htr', Htr, app_assoc.
      split; [done|]. apply Forall_app. split; [by apply Hcb|done].
Qed.

Lemma NewRTPFlowWithID_inv (i : Z) (g : RTPFlow) :
  NewRTPFlowWithID i = Returned g ->
  exists fl, newFlowWithID i = Returned fl /\
    g = {| prioritizer := defaultPriorityFunc; flows := {[ 0 := fl ]};
           localFeedback := None |}.
Proof.
  unfold NewRTPFlowWithID. destruct (newFlowWithID i) as [fl|]; [|discriminate].
  intros Hg. exists fl. split; [done|]. congruence.
Qed.

Lemma freshly_created_inv (g : RTPFlow) :
  freshly_created g ->
  exists fl, flows g = {[ 0 := fl ]} /\ prioritizer g = defaultPriorityFunc /\
             localFeedback g = None.
Proof.
  intros [->|[i (fl & _ & ->)%NewRTPFlowWithID_inv]]; by eexists.
Qed.

Lemma run_app (ops1 ops2 : list op) (f : RTPFlow) (w : World) :
  run (ops1 ++ ops2) f w =
    match run ops1 f w with
    | (None, f', w') => run ops2 f' w'
    | stopped => stopped
    end.
Proof.
  revert f w. induction ops1 as [|o ops1 IH]; intros f w; simpl; [done|].
  by destruct (step o f w) as [[[v|] f1] w1].
Qed.

Lemma defaultPriorityFunc_always_0 : always_class_0 defaultPriorityFunc.
Proof. by intros h b. Qed.

(** ** Prioritized group: construction and the default class *)

(** C6, as the code has it.  [NewRTPFlow] gives a group with exactly one
    sub-flow, at class 0, without prefix; [NewRTPFlowWithID i] gives a
    group with exactly one sub-flow, at class 0, that prefixes the
    encoding of [i]; the prioritizer of both answers 0 to every header and
    payload; and class 0 stays registered along every history of the
    group. *)
Theorem fresh_group_default_class :
  (single_unidentified_default NewRTPFlow /\ always_class_0 (prioritizer NewRTPFlow))
  /\ (forall i g, NewRTPFlowWithID i = Returned g ->
        exists fl enc,
          flows g = {[ 0 := fl ]} /\ quicvarint_Write i = Some enc /\
          useID fl = true /\ id fl = i /\
          (forall payload, framed fl payload = enc ++ payload) /\
          always_class_0 (prioritizer g))
  /\ (forall g0 ops w v g w',
        freshly_created g0 -> run ops g0 w = (v, g, w') -> is_Some (flows g !! 0)).
Proof.
  split; [|split].
  - split; [|apply defaultPriorityFunc_always_0]. by exists newFlow.
  - intros i g (fl & Hfl & ->)%NewRTPFlowWithID_inv.
    apply newFlowWithID_inv in Hfl as (enc & Henc & ->).
    eexists _, enc. by repeat split.
  - intros g0 ops w v g w' (fl & Hfl & _)%freshly_created_inv Hrun.
    eapply run_keeps_default; [exact Hrun|]. rewrite Hfl, lookup_singleton_eq. by eexists.
Qed.

(** ** Prioritized group: local feedback selects the write path *)

(** C7, as the code has it.  Take a history of a fresh group that reaches
    [g1] before any [RunLocalFeedback] and [g2] after one, and a packet
    whose header marshals.  On [g1], a [Write] routed to a registered
    sub-flow is that sub-flow's plain write: one [Write] call on its
    transport, with no callback, or the nil-transport panic when it is
    unbound.  On [g2], it is that sub-flow's callback write: one
    [WriteWithAckLossCallback] call, with the framed packet and the
    [ackCallback] closure, on a [Dgram] or [Stream], and
    [errInvalidTransport] with nothing written on any other transport,
    never a plain write.  Accordingly all transport calls of the history
    before [RunLocalFeedback] are plain and all those after it are
    callback writes. *)
Theorem local_feedback_selects_write_path (g0 g1 g2 : RTPFlow) (ops1 ops2 : list op)
    (ssrc0 : Z) (m : Metricer) (reportCB : FeedbackSink) (w0 w1 w2 : World)
    (header : Header) (payload headerBuf : bytes) :
  freshly_created g0 ->
  Forall (fun o => is_RunLocalFeedback o = false) ops1 ->
  run ops1 g0 w0 = (None, g1, w1) ->
  run (ops1 ++ OpRunLocalFeedback ssrc0 m reportCB :: ops2) g0 w0 = (None, g2, w2) ->
  Header_Marshal header = inl headerBuf ->
  (forall prio p' fl,
     Prioritize (prioritizer g1) header payload = (prio, p') ->
     flows g1 !! prio = Some fl ->
     let g' := {| prioritizer := p'; flows := flows g1; localFeedback := None |} in
     let pkt := framed fl (headerBuf ++ payload) in
     (transport fl <> nilWriter ->
        RTPFlow_Write g1 header payload w1 =
          (Returned (Write_result (transport fl) (trace w1) pkt), g',
           emit (EvWrite (transport fl) pkt) w1))
     /\ (transport fl = nilWriter ->
         RTPFlow_Write g1 header payload w1 = (Panicked nilDereference, g', w1)))
  /\ (forall prio p' fl,
       Prioritize (prioritizer g2) header payload = (prio, p') ->
       flows g2 !! prio = Some fl ->
       let g' := {| prioritizer := p'; flows := flows g2;
                    localFeedback := localFeedback g2 |} in
       let pkt := framed fl (headerBuf ++ payload) in
       let cb := RTPFlow_ackCallback (clock w2) (SSRC header)
                   (Header_MarshalSize header) (SequenceNumber header) in
       is_Some (localFeedback g2)
       /\ (supports_callback (transport fl) = true ->
           RTPFlow_Write g2 header payload w2 =
             (Returned (WriteWithAckLossCallback_result (transport fl) (trace w2) pkt cb),
              g', emit (EvWriteWithAckLossCallback (transport fl) pkt cb) w2))
       /\ (supports_callback (transport fl) = false ->
           RTPFlow_Write g2 header payload w2 =
             (Returned (0, Some errInvalidTransport), g', w2)))
  /\ (exists evs1 evs2,
        trace w1 = trace w0 ++ evs1 /\ trace w2 = trace w1 ++ evs2 /\
        Forall (fun e => is_plain_write e = true) evs1 /\
        Forall (fun e => is_callback_write e = true) evs2).
Proof.
  intros (fl0 & _ & _ & Hnone)%freshly_created_inv Hops Hrun1 Hrun Hm.
  destruct (run_plain _ _ _ _ _ _ Hops Hnone Hrun1) as (Hg1 & evs1 & Htr1 & Hpl).
  rewrite run_app, Hrun1 in Hrun. simpl in Hrun.
  destruct (run_callback ops2 (RTPFlow_RunLocalFeedback g1 ssrc0 m reportCB) g2 w1 w2 None)
    as (Hg2 & evs2 & Htr2 & Hcb); [by eexists|exact Hrun|].
  split; [|split].
  - intros prio p' fl Hp Hfl. cbv zeta.
    rewrite (RTPFlow_Write_marshalled g1 header payload w1 _ _ _ Hm Hp), Hfl, Hg1.
    rewrite flow_write_framed. split.
    + intros Ht. by rewrite (Writer_Write_bound _ _ _ Ht).
    + by intros ->.
  - intros prio p' fl Hp Hfl. cbv zeta. split; [done|].
    rewrite (RTPFlow_Write_marshalled g2 header payload w2 _ _ _ Hm Hp), Hfl.
    destruct Hg2 as [g Hg]. rewrite Hg.
    unfold flow_writeWithCallBack, framed. by destruct (transport fl).
  - by exists evs1, evs2.
Qed.

End FlowProperties.

(** ** Congestion-control algorithm names *)

Section ControllerProperties.
Import controller.

Lemma CongestionControlAlgorithm_String_undefined (fuel : nat)
    (a : CongestionControlAlgorithm) :
  a < 0 \/ 4 < a -> CongestionControlAlgorithm_String fuel a = None.
Proof.
  intros Ha. induction fuel as [|fuel IH]; simpl; [done|].
  unfold Reno, Cubic, BBR, SCReAM, GCC.
  destruct (Z.eqb_spec a 0); [lia|]. destruct (Z.eqb_spec a 1); [lia|].
  destruct (Z.eqb_spec a 2); [lia|]. destruct (Z.eqb_spec a 3); [lia|].
  destruct (Z.eqb_spec a 4); [lia|]. by rewrite IH.
Qed.

(** C10. For each of the five defined values, [String] returns (for every
    positive fuel, without logging) a name that
    [CongestionControlAlgorithmFromString] maps back to the value; and a
    string that is none of the five names is mapped to [Reno]. *)
Theorem CongestionControlAlgorithm_roundtrip (fuel : nat) (s : string) :
  (forall a, In a [Reno; Cubic; BBR; SCReAM; GCC] ->
     exists name, CongestionControlAlgorithm_String (S fuel) a = Some (name, []) /\
                  CongestionControlAlgorithmFromString name = (a, []))
  /\ (defined_name s = false ->
      fst (CongestionControlAlgorithmFromString s) = Reno /\
      snd (CongestionControlAlgorithmFromString s) =
        [log_Printf "warning, unknown algorithm: %v, using default ('reno')" s]).
Proof.
  split.
  - intros a Ha. simpl in Ha.
    destruct Ha as [<-|[<-|[<-|[<-|[<-|[]]]]]]; eexists; split; reflexivity.
  - unfold defined_name, CongestionControlAlgorithmFromString. simpl.
    destruct (String.eqb s "reno"); [discriminate|].
    destruct (String.eqb s "cubic"); [discriminate|].
    destruct (String.eqb s "bbr"); [discriminate|].
    destruct (String.eqb s "scream"); [discriminate|].
    destruct (String.eqb s "gcc"); [discriminate|]. done.
Qed.

End ControllerProperties.

(** * The statements on concrete inputs *)

Section Scenarios.
Import Sample.

Example varint_of_7 : quicvarint_Write 7 = Some [x07].
Proof. reflexivity. Qed.

Example varint_of_15293 : quicvarint_Write 15293 = Some [x7b; xbd].
Proof. reflexivity. Qed.

Example varint_too_large : newFlowWithID 4611686018427387904
                           = Panicked (varintOverflow 4611686018427387904).
Proof. reflexivity. Qed.

Example marshal_header0 : Header_Marshal header0 = inl header0_bytes.
Proof. reflexivity. Qed.

(** A packet with the marker bit goes to the transport of class 1, with
    the prefix of that sub-flow. *)
Example marker_packet_on_class_1 :
  RTPFlow_Write group_two_classes header0 [x01; x02] world0 =
    (Returned (15, None), group_two_classes,
     {| trace := [EvWrite (otherWriter 1) (x05 :: header0_bytes ++ [x01; x02])];
        clock := 1000 |}).
Proof. reflexivity. Qed.

(** An unbound sub-flow: the plain write panics, the callback write
    answers [errInvalidTransport]. *)
Example write_unbound :
  flow_write flow7 [x01] world0 = (Panicked nilDereference, world0)
  /\ flow_writeWithCallBack flow7 [x01] (RTPFlow_ackCallback 0 0 0 0) world0
     = (Returned (0, Some errInvalidTransport), world0).
Proof. split; reflexivity. Qed.

(** C4 at a concrete input.  A fresh group is bound to a [Dgram], local
    feedback is started, and a packet with a 12-byte header and a 3-byte
    payload is written: 15 bytes go to the transport, and the record that
    reaches the generator when the callback is called with [true] carries
    the send time, the SSRC and the sequence number of the packet, and
    size 12, the size of the header alone. *)
Theorem ack_record_size_is_header_size :
  exists g cb g',
    run [OpBind (DgramPtr 0); OpRunLocalFeedback 3735928559 tt tt;
         OpWrite header0 [x01; x02; x03]] NewRTPFlow world0
    = (None, g,
       {| trace := [EvWriteWithAckLossCallback (DgramPtr 0)
                      (header0_bytes ++ [x01; x02; x03]) cb];
          clock := 1000 |})
    /\ length (header0_bytes ++ [x01; x02; x03]) = 15%nat
    /\ callback_call cb true g = Returned g'
    /\ localFeedback g' =
         Some [ {| sentTS := 1000; ssrc := 3735928559; size := 12; seqNr := 1 |} ]
    /\ size {| sentTS := 1000; ssrc := 3735928559; size := 12; seqNr := 1 |}
         <> Z.of_nat (length (header0_bytes ++ [x01; x02; x03])).
Proof.
  do 3 eexists. split; [reflexivity|]. split; [reflexivity|].
  split; [reflexivity|]. split; [reflexivity|]. discriminate.
Qed.

(** C6 as stated fails: a group made by [NewRTPFlowWithID 7] is freshly
    created, and its only sub-flow prefixes every payload with [x07]. *)
Lemma fresh_group_with_id_is_identified :
  ~ (forall g : RTPFlow, freshly_created g -> single_unidentified_default g).
Proof.
  intros H.
  destruct (H {| prioritizer := defaultPriorityFunc; flows := {[ 0 := flow7 ]};
                 localFeedback := None |}) as (fl & Hfl & Hid & _).
  - right. by exists 7.
  - apply (f_equal (fun m => m !! 0)) in Hfl. cbn [flows] in Hfl.
    rewrite !lookup_singleton_eq in Hfl. assert (fl = flow7) as -> by congruence.
    discriminate.
Qed.

(** ** The theorems applied *)

(** Scenario A: the sub-flow with id 7 writes [x01; x02]. *)
Lemma flow_write_transmits_witness :
  otherWriter 0 <> nilWriter /\
  newFlowWithID 7 = Returned flow7 /\
  flow_write (set_transport flow7 (otherWriter 0)) [x01; x02] world0 =
    (Returned (3, None),
     {| trace := [EvWrite (otherWriter 0) [x07; x01; x02]]; clock := 1000 |}) /\
  flow_write (set_transport newFlow (otherWriter 0)) [x01; x02] world0 =
    (Returned (2, None),
     {| trace := [EvWrite (otherWriter 0) [x01; x02]]; clock := 1000 |}).
Proof.
  assert (Ht : otherWriter 0 <> nilWriter) by discriminate.
  destruct (flow_write_transmits 7 flow7 (otherWriter 0) [x01; x02] world0 Ht)
    as [Hid Hplain].
  destruct (Hid eq_refl) as (enc & Henc & Hw).
  assert (enc = [x07]) as -> by (cbv in Henc; congruence).
  split; [exact Ht|]. split; [reflexivity|]. split; [exact Hw|exact Hplain].
Defined.


(** Scenario D: a callback write on a transport without callback. *)
Lemma flow_writeWithCallBack_unsupported_witness :
  supports_callback (transport (set_transport flow7 (otherWriter 0))) = false /\
  flow_writeWithCallBack (set_transport flow7 (otherWriter 0)) [x01]
    (RTPFlow_ackCallback 1000 1 12 1) world0
  = (Returned (0, Some errInvalidTransport), world0).
Proof.
  split; [reflexivity|].
  exact (proj1 (flow_writeWithCallBack_unsupported
                  (set_transport flow7 (otherWriter 0)) [x01]
                  (RTPFlow_ackCallback 1000 1 12 1) world0 eq_refl)).
Defined.

Lemma fresh_group_default_class_witness :
  freshly_created NewRTPFlow /\
  is_Some (flows (run [OpBindPriority 0 9 (DgramPtr 1); OpBind (otherWriter 2);
                       OpSetPrioritizer marker_first] NewRTPFlow world0).1.2 !! 0) /\
  exists fl enc,
    flows {| prioritizer := defaultPriorityFunc; flows := {[ 0 := flow7 ]};
             localFeedback := None |} = {[ 0 := fl ]} /\
    quicvarint_Write 7 = Some enc /\ useID fl = true /\ id fl = 7 /\
    (forall payload, framed fl payload = enc ++ payload) /\
    always_class_0 defaultPriorityFunc.
Proof.
  destruct fresh_group_default_class as (_ & Hid & Hinv).
  assert (Hf : freshly_created NewRTPFlow) by (by left).
  split; [exact Hf|]. split; [|exact (Hid 7 _ eq_refl)].
  destruct (run _ NewRTPFlow world0) as [[v g] w] eqn:Hr.
  exact (Hinv _ _ _ _ _ _ Hf Hr).
Defined.

(** C7 as stated fails: with local feedback started on a group bound to
    a transport that takes no callback, a [Write] of a well-formed packet
    hands nothing to any transport. *)
Lemma feedback_write_on_plain_transport :
  ~ (forall (g0 g : RTPFlow) (ops1 ops2 : list op) (ssrc0 : Z) (m : Metricer)
            (reportCB : FeedbackSink) (w0 w : World) (header : Header) (payload : bytes),
       freshly_created g0 ->
       run (ops1 ++ OpRunLocalFeedback ssrc0 m reportCB :: ops2) g0 w0 = (None, g, w) ->
       performs_callback_write g header payload w).
Proof.
  intros H.
  destruct (H NewRTPFlow _ [OpBind (otherWriter 0)] [] 1 tt tt world0 _ header0 [x01]
              (or_introl eq_refl) eq_refl) as (r & f' & t & pkt & cb & HW).
  apply (f_equal (fun x => length (trace (snd x)))) in HW. vm_compute in HW.
  discriminate.
Qed.

Lemma local_feedback_selects_write_path_witness :
  let ops1 := [OpBind (DgramPtr 0); OpWrite header0 [x01]] in
  let ops2 := [OpWrite header0 [x02]; OpNotify (RTPFlow_ackCallback 1000 1 12 1) true] in
  let fl := set_transport newFlow (DgramPtr 0) in
  exists g1 w1 g2 w2,
    freshly_created NewRTPFlow /\
    Forall (fun o => is_RunLocalFeedback o = false) ops1 /\
    run ops1 NewRTPFlow world0 = (None, g1, w1) /\
    run (ops1 ++ OpRunLocalFeedback 1 tt tt :: ops2) NewRTPFlow world0 = (None, g2, w2) /\
    Header_Marshal header0 = inl header0_bytes /\
    RTPFlow_Write g1 header0 [x03] w1 =
      (Returned (Write_result (DgramPtr 0) (trace w1) (header0_bytes ++ [x03])),
       g1, emit (EvWrite (DgramPtr 0) (header0_bytes ++ [x03])) w1) /\
    RTPFlow_Write g2 header0 [x03] w2 =
      (Returned (WriteWithAckLossCallback_result (DgramPtr 0) (trace w2)
                   (header0_bytes ++ [x03])
                   (RTPFlow_ackCallback (clock w2) (SSRC header0)
                      (Header_MarshalSize header0) (SequenceNumber header0))),
       g2,
       emit (EvWriteWithAckLossCallback (DgramPtr 0) (header0_bytes ++ [x03])
               (RTPFlow_ackCallback (clock w2) (SSRC header0)
                  (Header_MarshalSize header0) (SequenceNumber header0))) w2).
Proof.
  intros ops1 ops2 fl.
  assert (Hf : freshly_created NewRTPFlow) by (by left).
  assert (Hops : Forall (fun o => is_RunLocalFeedback o = false) ops1)
    by (by repeat constructor).
  assert (Ht : transport fl <> nilWriter) by discriminate.
  eexists _, _, _, _.
  split; [exact Hf|]. split; [exact Hops|].
  split; [reflexivity|]. split; [reflexivity|]. split; [reflexivity|].
  destruct (local_feedback_selects_write_path NewRTPFlow _ _ ops1 ops2 1 tt tt world0 _ _
              header0 [x03] header0_bytes Hf Hops eq_refl eq_refl eq_refl)
    as (Hbefore & Hafter & _).
  split.
  - exact (proj1 (Hbefore 0 defaultPriorityFunc fl eq_refl eq_refl) Ht).
  - exact (proj1 (proj2 (Hafter 0 defaultPriorityFunc fl eq_refl eq_refl)) eq_refl).
Defined.

Lemma RTCPFlow_Write_plain_witness :
  otherWriter 0 <> nilWriter /\
  rtcp_Marshal packets_bad = inr (foreignError "invalid header") /\
  RTCPFlow_Write (RTCPFlow_Bind NewRTCPFlow (otherWriter 0)) packets_bad world0
    = (Returned (0, Some (foreignError "invalid header")), world0) /\
  rtcp_Marshal packets_ok = inl [x80; xc9] /\
  RTCPFlow_Write (RTCPFlow_Bind {| rtcp_flow := flow7 |} (otherWriter 0))
    packets_ok world0
    = (Returned (3, None),
       {| trace := [EvWrite (otherWriter 0) [x07; x80; xc9]]; clock := 1000 |}).
Proof.
  assert (Ht : otherWriter 0 <> nilWriter) by discriminate.
  destruct (RTCPFlow_Write_plain NewRTCPFlow (otherWriter 0) packets_bad
              world0 Ht) as [Herr _].
  destruct (RTCPFlow_Write_plain {| rtcp_flow := flow7 |} (otherWriter 0)
              packets_ok world0 Ht) as [_ Hok].
  destruct (Hok [x80; xc9] eq_refl) as (Hw & _ & _).
  split; [exact Ht|]. split; [reflexivity|]. split; [exact (Herr _ eq_refl)|].
  split; [reflexivity|exact Hw].
Defined.

Lemma RTPFlow_Write_marshal_error_witness :
  Header_Marshal header_ext = inr (foreignError "short buffer") /\
  RTPFlow_Write group_two_classes header_ext [x01] world0
    = (Returned (0, Some (foreignError "short buffer")), group_two_classes, world0).
Proof.
  split; [reflexivity|].
  exact (RTPFlow_Write_marshal_error group_two_classes header_ext [x01] world0
           (foreignError "short buffer") eq_refl).
Defined.

Lemma CongestionControlAlgorithm_roundtrip_witness :
  In controller.BBR [controller.Reno; controller.Cubic; controller.BBR;
                     controller.SCReAM; controller.GCC] /\
  controller.defined_name "vegas" = false /\
  (exists name,
     controller.CongestionControlAlgorithm_String 1 controller.BBR = Some (name, []) /\
     controller.CongestionControlAlgorithmFromString name = (controller.BBR, [])) /\
  fst (controller.CongestionControlAlgorithmFromString "vegas") = controller.Reno.
Proof.
  destruct (CongestionControlAlgorithm_roundtrip 0 "vegas") as [Hdef Hunk].
  assert (Hin : In controller.BBR [controller.Reno; controller.Cubic; controller.BBR;
                                   controller.SCReAM; controller.GCC])
    by (right; right; left; reflexivity).
  split; [exact Hin|]. split; [reflexivity|]. split; [exact (Hdef _ Hin)|].
  exact (proj1 (Hunk eq_refl)).
Defined.

End Scenarios.

(** * Further properties of the flow layer *)

Section FlowFurther.
Context `{C : Collaborators}.

(** ** Sub-flows and single writes *)

(** X1. On a sub-flow bound to a [Dgram] or a [Stream],
    [writeWithCallBack] calls [WriteWithAckLossCallback] once, with the
    framed payload and the callback it was given, and returns what the
    transport answers. *)
Theorem flow_writeWithCallBack_supported (f : flow) (P : bytes) (cb : callback)
    (w : World) :
  supports_callback (transport f) = true ->
  flow_writeWithCallBack f P cb w =
    (Returned (WriteWithAckLossCallback_result (transport f) (trace w) (framed f P) cb),
     emit (EvWriteWithAckLossCallback (transport f) (framed f P) cb) w).
Proof.
  unfold flow_writeWithCallBack, framed. by destruct (transport f).
Qed.

(** X2. A group's [Write] returns the transport's own answer, byte count
    and error alike, after exactly one call: a plain [Write] without local
    feedback, a [WriteWithAckLossCallback] with it. *)
Theorem RTPFlow_Write_returns_transport_answer (f : RTPFlow) (header : Header)
    (payload : bytes) (w : World) (headerBuf : bytes) (prio : Z) (p' : Prioritizer)
    (fl : flow) :
  Header_Marshal header = inl headerBuf ->
  Prioritize (prioritizer f) header payload = (prio, p') ->
  flows f !! prio = Some fl ->
  let f' := {| prioritizer := p'; flows := flows f; localFeedback := localFeedback f |} in
  let pkt := framed fl (headerBuf ++ payload) in
  let cb := RTPFlow_ackCallback (clock w) (SSRC header) (Header_MarshalSize header)
              (SequenceNumber header) in
  (localFeedback f = None -> transport fl <> nilWriter ->
     RTPFlow_Write f header payload w =
       (Returned (Write_result (transport fl) (trace w) pkt), f',
        emit (EvWrite (transport fl) pkt) w))
  /\ (is_Some (localFeedback f) -> supports_callback (transport fl) = true ->
      RTPFlow_Write f header payload w =
        (Returned (WriteWithAckLossCallback_result (transport fl) (trace w) pkt cb), f',
         emit (EvWriteWithAckLossCallback (transport fl) pkt cb) w)).
Proof.
  intros Hm Hp Hfl f' pkt cb. subst f' pkt cb.
  rewrite (RTPFlow_Write_marshalled f header payload w _ _ _ Hm Hp), Hfl. split.
  - intros Hg Ht. rewrite Hg, flow_write_framed, (Writer_Write_bound _ _ _ Ht).
    reflexivity.
  - intros [g Hg] Ht. rewrite Hg. unfold flow_writeWithCallBack, framed.
    by destruct (transport fl).
Qed.

(** X3. With local feedback running, a [Write] that is routed to a
    sub-flow whose transport takes no callback (a nil transport included)
    returns 0 and [errInvalidTransport] and hands nothing to any
    transport. *)
Theorem RTPFlow_Write_feedback_needs_callback_transport (f : RTPFlow) (header : Header)
    (payload : bytes) (w : World) (headerBuf : bytes) (prio : Z) (p' : Prioritizer)
    (fl : flow) :
  Header_Marshal header = inl headerBuf ->
  Prioritize (prioritizer f) header payload = (prio, p') ->
  flows f !! prio = Some fl ->
  is_Some (localFeedback f) ->
  supports_callback (transport fl) = false ->
  RTPFlow_Write f header payload w =
    (Returned (0, Some errInvalidTransport),
     {| prioritizer := p'; flows := flows f; localFeedback := localFeedback f |}, w).
Proof.
  intros Hm Hp Hfl [g Hg] Ht.
  rewrite (RTPFlow_Write_marshalled f header payload w _ _ _ Hm Hp), Hfl, Hg.
  unfold flow_writeWithCallBack. by destruct (transport fl).
Qed.

Lemma freshly_created_unbound (g : RTPFlow) :
  freshly_created g ->
  exists fl, g = {| prioritizer := defaultPriorityFunc; flows := {[ 0 := fl ]};
                    localFeedback := None |} /\ transport fl = nilWriter.
Proof.
  intros [->|[i (fl & Hfl & ->)%NewRTPFlowWithID_inv]].
  - by exists newFlow.
  - apply newFlowWithID_inv in Hfl as (enc & _ & ->). by eexists.
Qed.

(** X4. A group that was created and never bound cannot send: once the
    header marshals, [Write] panics on the nil transport, and with local
    feedback started it returns [errInvalidTransport]; either way nothing
    reaches a transport. *)
Theorem RTPFlow_Write_before_Bind (g : RTPFlow) (header : Header) (payload : bytes)
    (w : World) (headerBuf : bytes) (ssrc0 : Z) (m : Metricer) (reportCB : FeedbackSink) :
  freshly_created g ->
  Header_Marshal header = inl headerBuf ->
  RTPFlow_Write g header payload w = (Panicked nilDereference, g, w)
  /\ RTPFlow_Write (RTPFlow_RunLocalFeedback g ssrc0 m reportCB) header payload w =
       (Returned (0, Some errInvalidTransport),
        RTPFlow_RunLocalFeedback g ssrc0 m reportCB, w).
Proof.
  intros (fl & -> & Ht)%freshly_created_unbound Hm.
  set (g := {| prioritizer := defaultPriorityFunc; flows := {[ 0 := fl ]};
               localFeedback := None |}).
  split.
  - rewrite (RTPFlow_Write_marshalled g header payload w headerBuf 0
               defaultPriorityFunc Hm eq_refl).
    cbn [flows localFeedback g]. rewrite lookup_singleton_eq, flow_write_framed, Ht.
    reflexivity.
  - rewrite (RTPFlow_Write_marshalled (RTPFlow_RunLocalFeedback g ssrc0 m reportCB)
               header payload w headerBuf 0 defaultPriorityFunc Hm eq_refl).
    cbn [flows localFeedback RTPFlow_RunLocalFeedback g].
    rewrite lookup_singleton_eq. unfold flow_writeWithCallBack. rewrite Ht.
    reflexivity.
Qed.

(** X5. [Write] changes neither the registered sub-flows nor the
    generator, and reads the clock without moving it; with a
    [PrioritizerFunc] policy it leaves the whole group as it was. *)
Theorem RTPFlow_Write_keeps_group (f f' : RTPFlow) (header : Header) (payload : bytes)
    (w w' : World) (r : outcome (Z * option error)) :
  RTPFlow_Write f header payload w = (r, f', w') ->
  flows f' = flows f /\ localFeedback f' = localFeedback f /\ clock w' = clock w
  /\ (forall p, prioritizer f = PrioritizerFunc p -> f' = f).
Proof.
  intros HW. destruct (RTPFlow_Write_keeps _ _ _ _ _ _ _ HW) as (Hfl & Hlf & _).
  split; [done|]. split; [done|].
  destruct (Header_Marshal header) as [headerBuf|err] eqn:Hm.
  - destruct (Prioritize (prioritizer f) header payload) as [prio p'] eqn:Hp.
    rewrite (RTPFlow_Write_marshalled f header payload w _ _ _ Hm Hp) in HW.
    assert (Hf' : f' = {| prioritizer := p'; flows := flows f;
                          localFeedback := localFeedback f |}
                  /\ clock w' = clock w).
    { destruct (flows f !! prio) as [fl|]; [|by injection HW as <- <- <-].
      destruct (localFeedback f) as [g|].
      - destruct (flow_writeWithCallBack _ _ _ _) as [r0 w0] eqn:Hcall.
        injection HW as <- <- <-.
        by apply flow_writeWithCallBack_events in Hcall as (? & _).
      - destruct (flow_write _ _ _) as [r0 w0] eqn:Hcall.
        injection HW as <- <- <-.
        by apply flow_write_events in Hcall as (? & _). }
    destruct Hf' as [-> Hclock]. split; [done|].
    intros p Hpf. destruct f as [pr fls lf]. simpl in *. subst pr.
    by injection Hp as <- <-.
  - unfold RTPFlow_Write in HW. rewrite Hm in HW. by injection HW as <- <- <-.
Qed.

(** ** Binding *)

(** X6. After [BindPriority priority flowID t], a packet for which the
    policy answers [priority] goes to [t] and to no other transport, as
    the encoding of [flowID] followed by the marshalled header and the
    payload: by a plain [Write] without local feedback, by
    [WriteWithAckLossCallback] with it. *)
Theorem RTPFlow_BindPriority_then_Write (f f1 : RTPFlow) (priority flowID : Z)
    (t : Writer) (header : Header) (payload : bytes) (w : World) (headerBuf : bytes)
    (p' : Prioritizer) :
  RTPFlow_BindPriority f priority flowID t = Returned f1 ->
  Header_Marshal header = inl headerBuf ->
  Prioritize (prioritizer f) header payload = (priority, p') ->
  exists enc, quicvarint_Write flowID = Some enc /\
    let f1' := {| prioritizer := p'; flows := flows f1;
                  localFeedback := localFeedback f |} in
    let pkt := enc ++ headerBuf ++ payload in
    let cb := RTPFlow_ackCallback (clock w) (SSRC header) (Header_MarshalSize header)
                (SequenceNumber header) in
    (localFeedback f = None -> t <> nilWriter ->
       RTPFlow_Write f1 header payload w =
         (Returned (Write_result t (trace w) pkt), f1', emit (EvWrite t pkt) w))
    /\ (is_Some (localFeedback f) -> supports_callback t = true ->
        RTPFlow_Write f1 header payload w =
          (Returned (WriteWithAckLossCallback_result t (trace w) pkt cb), f1',
           emit (EvWriteWithAckLossCallback t pkt cb) w)).
Proof.
  unfold RTPFlow_BindPriority. intros Hb Hm Hp.
  destruct (newFlowWithID flowID) as [fl|] eqn:Hfl; [|discriminate].
  apply newFlowWithID_inv in Hfl as (enc & Henc & ->).
  injection Hb as <-. exists enc. split; [done|]. cbv zeta.
  match goal with |- context [RTPFlow_Write ?g _ _ _] =>
    rewrite (RTPFlow_Write_marshalled g header payload w headerBuf priority p' Hm Hp)
  end.
  cbn [flows localFeedback]. rewrite lookup_insert_eq. split.
  - intros Hg Ht. rewrite Hg, flow_write_framed.
    cbn [transport framed useID varIntID set_transport].
    rewrite (Writer_Write_bound _ _ _ Ht). reflexivity.
  - intros [g Hg] Ht. rewrite Hg. unfold flow_writeWithCallBack.
    cbn [transport useID varIntID set_transport]. by destruct t.
Qed.

(** X7. [BindPriority] touches one class only: the other classes, the
    policy and the generator stay; and binding a class again replaces the
    earlier binding, as if it had never been made. *)
Theorem RTPFlow_BindPriority_frame (f f1 : RTPFlow) (priority flowID : Z) (t : Writer) :
  RTPFlow_BindPriority f priority flowID t = Returned f1 ->
  prioritizer f1 = prioritizer f /\ localFeedback f1 = localFeedback f
  /\ (forall k, k <> priority -> flows f1 !! k = flows f !! k)
  /\ (forall f0 id0 t0,
        RTPFlow_BindPriority f0 priority id0 t0 = Returned f ->
        RTPFlow_BindPriority f0 priority flowID t = Returned f1).
Proof.
  unfold RTPFlow_BindPriority. intros Hb.
  destruct (newFlowWithID flowID) as [fl|] eqn:Hfl; [|discriminate].
  injection Hb as <-. split; [done|]. split; [done|]. split.
  - intros k Hk. cbn [flows]. by rewrite lookup_insert_ne.
  - intros f0 id0 t0 H0. destruct (newFlowWithID id0) as [fl0|]; [|discriminate].
    injection H0 as <-.
    cbn [prioritizer flows localFeedback]. by rewrite insert_insert_eq.
Qed.

(** X8. [Bind] swaps the transport of class 0 and nothing else: the
    sub-flow keeps its framing (a class 0 that [BindPriority] made
    identified stays identified), the other classes, the policy and the
    generator stay, and a second [Bind] replaces the first. *)
Theorem RTPFlow_Bind_rebinds_default (f f1 : RTPFlow) (t : Writer) :
  RTPFlow_Bind f t = Returned f1 ->
  exists fl, flows f !! 0 = Some fl /\ flows f1 !! 0 = Some (set_transport fl t)
    /\ (forall P, framed (set_transport fl t) P = framed fl P)
    /\ (forall k, k <> 0 -> flows f1 !! k = flows f !! k)
    /\ prioritizer f1 = prioritizer f /\ localFeedback f1 = localFeedback f
    /\ (forall t2, RTPFlow_Bind f1 t2 = RTPFlow_Bind f t2).
Proof.
  unfold RTPFlow_Bind. intros Hb. destruct (flows f !! 0) as [fl|] eqn:H0; [|discriminate].
  injection Hb as <-. exists fl. split; [done|]. cbn [flows prioritizer localFeedback].
  split; [by rewrite lookup_insert_eq|]. split; [done|].
  split; [by intros k Hk; rewrite lookup_insert_ne|]. split; [done|]. split; [done|].
  intros t2. by rewrite lookup_insert_eq, insert_insert_eq.
Qed.

(** X9. On a group reached by any history from a constructor, [Bind]
    returns: class 0 is there to take the transport. *)
Theorem RTPFlow_Bind_returns (g0 g : RTPFlow) (ops : list op) (w w' : World)
    (v : option panic_value) (t : Writer) :
  freshly_created g0 ->
  run ops g0 w = (v, g, w') ->
  exists fl, flows g !! 0 = Some fl /\
    RTPFlow_Bind g t =
      Returned {| prioritizer := prioritizer g;
                  flows := <[ 0 := set_transport fl t ]> (flows g);
                  localFeedback := localFeedback g |}.
Proof.
  intros (fl0 & Hfl0 & _)%freshly_created_inv Hrun.
  destruct (run_keeps_default _ _ _ _ _ _ Hrun) as [fl Hfl].
  { rewrite Hfl0, lookup_singleton_eq. by eexists. }
  exists fl. split; [done|]. unfold RTPFlow_Bind. by rewrite Hfl.
Qed.

(** ** The callback and the generator *)

(** X10. A run of callback calls gives the generator the group holds at
    the time of the calls exactly the records of the calls made with
    [true], in the order of the calls; it never panics once a generator is
    there, and it touches neither the sub-flows, the policy nor any
    transport. *)
Theorem notifications_acknowledged (f : RTPFlow) (g : localRFC8888Generator)
    (ns : list (callback * bool)) (w : World) :
  localFeedback f = Some g ->
  run (notifications ns) f w =
    (None,
     {| prioritizer := prioritizer f; flows := flows f;
        localFeedback := Some (acknowledged g ns) |}, w).
Proof.
  revert f g. induction ns as [|[cb b] ns IH]; intros f g Hg.
  - simpl. destruct f; simpl in *. by subst.
  - cbn [notifications map run step fst snd]. unfold callback_call.
    destruct b; [rewrite Hg|]; cbn [lift].
    + fold (notifications ns). by erewrite IH.
    + fold (notifications ns). by rewrite (IH f g Hg).
Qed.

(** ** RTCP sub-flow: edge cases *)

(** X11. An RTCP sub-flow that was never bound panics on the nil
    transport when the packets marshal, and still returns the marshal
    error when they do not; in neither case is anything written. *)
Theorem RTCPFlow_Write_unbound (f : RTCPFlow) (pkts : list rtcp_Packet) (w : World) :
  transport (rtcp_flow f) = nilWriter ->
  (forall buf, rtcp_Marshal pkts = inl buf ->
     RTCPFlow_Write f pkts w = (Panicked nilDereference, w))
  /\ (forall err, rtcp_Marshal pkts = inr err ->
       RTCPFlow_Write f pkts w = (Returned (0, Some err), w)).
Proof.
  intros Ht. unfold RTCPFlow_Write. split.
  - intros buf ->. by rewrite flow_write_framed, Ht.
  - by intros err ->.
Qed.

(** ** Histories: where packets can go *)

Lemma flow_write_one_call (fl : flow) (p : bytes) (w w' : World)
    (r : outcome (Z * option error)) :
  flow_write fl p w = (r, w') ->
  (forall v, r = Panicked v -> v = nilDereference) /\
  exists evs, trace w' = trace w ++ evs /\ (length evs <= 1)%nat /\
    Forall (fun e => event_transport e = transport fl /\ transport fl <> nilWriter) evs.
Proof.
  rewrite flow_write_framed. destruct (transport fl) eqn:Ht; simpl;
    intros [= <- <-]; (split; [by intros v [= <-]|]).
  - exists []. rewrite app_nil_r. repeat split; [simpl; lia|constructor].
  - eexists [_]. repeat split; [simpl; lia|]. by repeat constructor.
  - eexists [_]. repeat split; [simpl; lia|]. by repeat constructor.
  - eexists [_]. repeat split; [simpl; lia|]. by repeat constructor.
Qed.

Lemma flow_writeWithCallBack_one_call (fl : flow) (p : bytes) (cb : callback)
    (w w' : World) (r : outcome (Z * option error)) :
  flow_writeWithCallBack fl p cb w = (r, w') ->
  (forall v, r <> Panicked v) /\
  exists evs, trace w' = trace w ++ evs /\ (length evs <= 1)%nat /\
    Forall (fun e => event_transport e = transport fl /\ transport fl <> nilWriter) evs.
Proof.
  unfold flow_writeWithCallBack. destruct (transport fl) eqn:Ht; simpl;
    intros [= <- <-]; (split; [by intros v|]).
  - exists []. rewrite app_nil_r. repeat split; [simpl; lia|constructor].
  - eexists [_]. repeat split; [simpl; lia|]. by repeat constructor.
  - eexists [_]. repeat split; [simpl; lia|]. by repeat constructor.
  - exists []. rewrite app_nil_r. repeat split; [simpl; lia|constructor].
Qed.

Lemma RTPFlow_Write_one_call (f f' : RTPFlow) (header : Header) (payload : bytes)
    (w w' : World) (r : outcome (Z * option error)) :
  RTPFlow_Write f header payload w = (r, f', w') ->
  exists evs, trace w' = trace w ++ evs /\ (length evs <= 1)%nat /\
    Forall (fun e => exists prio fl, flows f !! prio = Some fl /\
                       event_transport e = transport fl /\
                       transport fl <> nilWriter) evs.
Proof.
  assert (Hnil : exists evs : list event, trace w = trace w ++ evs /\
            (length evs <= 1)%nat /\
            Forall (fun e => exists prio fl, flows f !! prio = Some fl /\
                       event_transport e = transport fl /\
                       transport fl <> nilWriter) evs).
  { exists []. rewrite app_nil_r. repeat split; [simpl; lia|constructor]. }
  destruct (Header_Marshal header) as [headerBuf|err] eqn:Hm.
  - destruct (Prioritize (prioritizer f) header payload) as [prio p'] eqn:Hp.
    rewrite (RTPFlow_Write_marshalled f header payload w _ _ _ Hm Hp). cbv zeta.
    destruct (flows f !! prio) as [fl|] eqn:Hfl; [|by intros [= <- <- <-]].
    destruct (localFeedback f) as [g|].
    + destruct (flow_writeWithCallBack _ _ _ _) as [r0 w0] eqn:Hcall.
      intros [= <- <- <-].
      apply flow_writeWithCallBack_one_call in Hcall as (_ & evs & Htr & Hlen & Hall).
      exists evs. repeat split; [done|done|].
      eapply Forall_impl; [exact Hall|]. intros e [He Ht]. by exists prio, fl.
    + destruct (flow_write _ _ _) as [r0 w0] eqn:Hcall.
      intros [= <- <- <-].
      apply flow_write_one_call in Hcall as (_ & evs & Htr & Hlen & Hall).
      exists evs. repeat split; [done|done|].
      eapply Forall_impl; [exact Hall|]. intros e [He Ht]. by exists prio, fl.
  - unfold RTPFlow_Write. rewrite Hm. by intros [= <- <- <-].
Qed.

Lemma step_within_bound (o : op) (f f' : RTPFlow) (w w' : World)
    (v : option panic_value) (B : list Writer) :
  step o f w = (v, f', w') ->
  (forall k fl, flows f !! k = Some fl -> transport fl = nilWriter \/ In (transport fl) B) ->
  (forall k fl, flows f' !! k = Some fl ->
     transport fl = nilWriter \/ In (transport fl) (B ++ op_transports o))
  /\ exists evs, trace w' = trace w ++ evs /\
       (length evs <= if is_Write o then 1 else 0)%nat /\
       Forall (fun e => In (event_transport e) B /\ event_transport e <> nilWriter) evs.
Proof.
  intros Hs HB.
  assert (Hnil : forall w0 : World, exists evs : list event, trace w0 = trace w0 ++ evs /\
            (length evs <= 0)%nat /\
            Forall (fun e => In (event_transport e) B /\ event_transport e <> nilWriter) evs).
  { intros w0. exists []. rewrite app_nil_r. repeat split; [simpl; lia|constructor]. }
  assert (Hweak : forall k fl, flows f !! k = Some fl ->
            transport fl = nilWriter \/ In (transport fl) (B ++ op_transports o)).
  { intros k fl Hk. destruct (HB k fl Hk) as [?|?]; [by left|right].
    apply in_or_app. by left. }
  destruct o as [t|priority flowID t|p|ssrc0 m reportCB|header payload|cb b|now];
    simpl in Hs; cbn [op_transports is_Write] in *.
  - unfold RTPFlow_Bind in Hs. destruct (flows f !! 0) as [fl0|] eqn:H0;
      injection Hs as <- <- <-; (split; [|by apply Hnil]); [|done].
    intros k fl. cbn [flows]. rewrite lookup_insert. case_decide.
    + intros [= <-]. right. apply in_or_app. right. by left.
    + by apply Hweak.
  - unfold RTPFlow_BindPriority in Hs. destruct (newFlowWithID flowID) as [fl0|];
      injection Hs as <- <- <-; (split; [|by apply Hnil]); [|done].
    intros k fl. cbn [flows]. rewrite lookup_insert. case_decide.
    + intros [= <-]. right. apply in_or_app. right. by left.
    + by apply Hweak.
  - injection Hs as <- <- <-. by split.
  - injection Hs as <- <- <-. by split.
  - destruct (RTPFlow_Write f header payload w) as [[r f1] w1] eqn:HW.
    destruct (RTPFlow_Write_keeps _ _ _ _ _ _ _ HW) as (Hfl & _ & _).
    apply RTPFlow_Write_one_call in HW as (evs & Htr & Hlen & Hall).
    assert (f' = f1 /\ w' = w1) as [-> ->] by (by destruct r; injection Hs as <- <- <-).
    rewrite Hfl. split; [done|]. exists evs. repeat split; [done|done|].
    eapply Forall_impl; [exact Hall|]. intros e (prio & fl & Hk & He & Ht).
    rewrite He. split; [|done]. by destruct (HB prio fl Hk).
  - unfold callback_call in Hs. destruct b; [destruct (localFeedback f)|];
      injection Hs as <- <- <-; by split.
  - injection Hs as <- <- <-. split; [done|]. apply (Hnil {| trace := trace w; clock := now |}).
Qed.

Lemma count_writes_cons (o : op) (ops : list op) :
  count_writes (o :: ops) = ((if is_Write o then 1 else 0) + count_writes ops)%nat.
Proof.
  unfold count_writes. destruct (is_Write o) eqn:Ho.
  - by rewrite filter_cons_True.
  - rewrite filter_cons_False; [done|]. by rewrite Ho.
Qed.

Lemma run_within_bound (ops : list op) (f f' : RTPFlow) (w w' : World)
    (v : option panic_value) (B : list Writer) :
  run ops f w = (v, f', w') ->
  (forall k fl, flows f !! k = Some fl -> transport fl = nilWriter \/ In (transport fl) B) ->
  exists evs, trace w' = trace w ++ evs /\ (length evs <= count_writes ops)%nat /\
    Forall (fun e => In (event_transport e) (B ++ bound_transports ops) /\
                     event_transport e <> nilWriter) evs.
Proof.
  revert f w B. induction ops as [|o ops IH]; intros f w B Hrun HB.
  - injection Hrun as <- <- <-. exists []. rewrite app_nil_r.
    repeat split; [simpl; lia|constructor].
  - simpl in Hrun. destruct (step o f w) as [[v1 f1] w1] eqn:Hs.
    destruct (step_within_bound _ _ _ _ _ _ B Hs HB) as (HB1 & evs & Htr & Hlen & Hall).
    assert (Hall' : Forall (fun e => In (event_transport e) (B ++ bound_transports (o :: ops))
                                     /\ event_transport e <> nilWriter) evs).
    { eapply Forall_impl; [exact Hall|]. intros e [He Hne]. split; [|done].
      apply in_or_app. by left. }
    rewrite count_writes_cons. destruct v1 as [v1|].
    + injection Hrun as <- <- <-. exists evs. repeat split; [done|lia|done].
    + destruct (IH _ _ _ Hrun HB1) as (evs' & Htr' & Hlen' & Hall2).
      exists (evs ++ evs'). rewrite Htr', Htr, app_assoc. split; [done|].
      split; [rewrite length_app; lia|]. apply Forall_app. split; [done|].
      eapply Forall_impl; [exact Hall2|]. intros e [He Hne]. split; [|done].
      unfold bound_transports. cbn [map concat]. by rewrite app_assoc.
Qed.

(** X12. Along any history of a fresh group, every packet is handed to a
    transport that some [Bind] or [BindPriority] of that history gave to
    the group, never to the nil transport, and there is at most one
    transport call per [Write]. *)
Theorem run_writes_only_to_bound_transports (g0 g : RTPFlow) (ops : list op)
    (w0 w : World) (v : option panic_value) :
  freshly_created g0 ->
  run ops g0 w0 = (v, g, w) ->
  exists evs, trace w = trace w0 ++ evs /\ (length evs <= count_writes ops)%nat /\
    Forall (fun e => In (event_transport e) (bound_transports ops) /\
                     event_transport e <> nilWriter) evs.
Proof.
  intros (fl & -> & Ht)%freshly_created_unbound Hrun.
  apply (run_within_bound _ _ _ _ _ _ [] Hrun).
  intros k fl'. cbn [flows]. rewrite lookup_singleton. case_decide; [|done].
  intros [= <-]. by left.
Qed.

(** ** Histories: the default policy *)

Lemma step_default_policy (o : op) (f f' : RTPFlow) (w w' : World)
    (v : option panic_value) :
  step o f w = (v, f', w') ->
  is_SetPrioritizer o = false ->
  prioritizer f = defaultPriorityFunc -> is_Some (flows f !! 0) ->
  prioritizer f' = defaultPriorityFunc /\ is_Some (flows f' !! 0) /\
  forall k, v <> Some (noFlowWithPrio k).
Proof.
  intros Hs Ho Hp [fl0 H0].
  destruct o as [t|priority flowID t|p|ssrc0 m reportCB|header payload|cb b|now];
    simpl in Hs; try discriminate.
  - unfold RTPFlow_Bind in Hs. rewrite H0 in Hs. injection Hs as <- <- <-.
    cbn [prioritizer flows]. rewrite lookup_insert_eq. (split; [done|]; split; [by eexists|]; by intros ?).
  - unfold RTPFlow_BindPriority, newFlowWithID in Hs.
    destruct (quicvarint_Write flowID) as [enc|];
      injection Hs as <- <- <-; cbn [prioritizer flows lift].
    + split; [done|]. split; [|done]. rewrite lookup_insert. case_decide; by eexists.
    + (split; [done|]; split; [by eexists|]; by intros ?).
  - injection Hs as <- <- <-. (split; [done|]; split; [by eexists|]; by intros ?).
  - destruct (RTPFlow_Write f header payload w) as [[r f1] w1] eqn:HW.
    assert (v = (match r with Returned _ => None | Panicked v0 => Some v0 end)
            /\ f' = f1) as [-> ->] by (by destruct r; injection Hs as <- <- <-).
    destruct (Header_Marshal header) as [headerBuf|err] eqn:Hm.
    + assert (Hpr : Prioritize (prioritizer f) header payload = (0, defaultPriorityFunc))
        by (by rewrite Hp).
      rewrite (RTPFlow_Write_marshalled f header payload w _ _ _ Hm Hpr), H0 in HW.
      cbv zeta in HW. destruct (localFeedback f) as [g|].
      * destruct (flow_writeWithCallBack _ _ _ _) as [r0 w0] eqn:Hcall.
        injection HW as <- <- <-. cbn [prioritizer flows]. split; [done|].
        split; [by eexists|]. intros k.
        apply flow_writeWithCallBack_one_call in Hcall as (Hnp & _).
        destruct r0 as [a|v0]; [done|]. by destruct (Hnp v0).
      * destruct (flow_write _ _ _) as [r0 w0] eqn:Hcall.
        injection HW as <- <- <-. cbn [prioritizer flows]. split; [done|].
        split; [by eexists|]. intros k.
        apply flow_write_one_call in Hcall as (Hp0 & _).
        destruct r0 as [a|v0]; [done|]. by rewrite (Hp0 v0 eq_refl).
    + unfold RTPFlow_Write in HW. rewrite Hm in HW. injection HW as <- <- <-.
      (split; [done|]; split; [by eexists|]; by intros ?).
  - unfold callback_call in Hs. destruct b; [destruct (localFeedback f)|];
      injection Hs as <- <- <-; (split; [done|]; split; [by eexists|]; by intros ?).
  - injection Hs as <- <- <-. (split; [done|]; split; [by eexists|]; by intros ?).
Qed.

(** X13. As long as no policy is set, a group answers class 0 for every
    packet and class 0 is registered, so no history of such a group ends
    in the "no flow with prio" panic. *)
Theorem default_policy_never_misses (g0 g : RTPFlow) (ops : list op) (w0 w : World)
    (v : option panic_value) :
  freshly_created g0 ->
  Forall (fun o => is_SetPrioritizer o = false) ops ->
  run ops g0 w0 = (v, g, w) ->
  prioritizer g = defaultPriorityFunc /\ forall k, v <> Some (noFlowWithPrio k).
Proof.
  intros (fl & Hfl & Hp & _)%freshly_created_inv Hops.
  assert (H0 : is_Some (flows g0 !! 0)) by (rewrite Hfl, lookup_singleton_eq; by eexists).
  clear Hfl. revert g0 w0 Hp H0.
  induction Hops as [|o ops Ho Hops IH]; intros g0 w0 Hp H0 Hrun.
  - simpl in Hrun. injection Hrun as <- <- <-. by split.
  - simpl in Hrun. destruct (step o g0 w0) as [[v1 g1] w1] eqn:Hs.
    destruct (step_default_policy _ _ _ _ _ _ Hs Ho Hp H0) as (Hp1 & H1 & Hv).
    destruct v1 as [v1|].
    + injection Hrun as <- <- <-. by split.
    + by apply (IH g1 w1).
Qed.

End FlowFurther.

(** * Further properties of the name conversions *)

Section NamesFurther.

(** X14. Whatever string it is given,
    [CongestionControlAlgorithmFromString] returns one of the five defined
    values, so [String] on its result returns without a warning: the
    string itself when it is one of the five names, "reno" otherwise. *)
Theorem CongestionControlAlgorithm_names_normalize (fuel : nat) (s : string) :
  exists name,
    controller.CongestionControlAlgorithm_String (S fuel)
      (fst (controller.CongestionControlAlgorithmFromString s)) = Some (name, [])
    /\ 0 <= fst (controller.CongestionControlAlgorithmFromString s) <= 4
    /\ (controller.defined_name s = true -> name = s)
    /\ (controller.defined_name s = false -> name = "reno"%string).
Proof.
  unfold controller.CongestionControlAlgorithmFromString, controller.defined_name.
  cbn [existsb].
  destruct (String.eqb_spec s "reno") as [->|_];
    [exists "reno"%string; split; [reflexivity|]; split; [by cbv|]; by split|].
  destruct (String.eqb_spec s "cubic") as [->|_];
    [exists "cubic"%string; split; [reflexivity|]; split; [by cbv|]; by split|].
  destruct (String.eqb_spec s "bbr") as [->|_];
    [exists "bbr"%string; split; [reflexivity|]; split; [by cbv|]; by split|].
  destruct (String.eqb_spec s "scream") as [->|_];
    [exists "scream"%string; split; [reflexivity|]; split; [by cbv|]; by split|].
  destruct (String.eqb_spec s "gcc") as [->|_];
    [exists "gcc"%string; split; [reflexivity|]; split; [by cbv|]; by split|].
  exists "reno"%string. split; [reflexivity|]. split; [by cbv|]. by split.
Qed.

(** X15. [String] returns exactly on the five defined values.  On any
    other value the warning it logs formats the value with [%v], which
    calls [String] on it again, and so on without end: no number of nested
    calls suffices for the call to return. *)
Theorem CongestionControlAlgorithm_String_returns_iff_defined
    (a : controller.CongestionControlAlgorithm) :
  (exists fuel r, controller.CongestionControlAlgorithm_String fuel a = Some r)
  <-> 0 <= a <= 4.
Proof.
  split.
  - intros (fuel & r & Hr). destruct (Z_lt_le_dec a 0) as [Hlt|Hge];
      [by rewrite CongestionControlAlgorithm_String_undefined in Hr; [|left]|].
    destruct (Z_lt_le_dec 4 a) as [Hgt|Hle];
      [by rewrite CongestionControlAlgorithm_String_undefined in Hr; [|right]|].
    lia.
  - intros Ha. exists 1%nat.
    assert (a = 0 \/ a = 1 \/ a = 2 \/ a = 3 \/ a = 4) as [->|[->|[->|[->| ->]]]] by lia;
      by eexists.
Qed.

(** X16. [getRTCP] undoes [RTCPFeedback.String] on the four defined
    values, without a warning; on any other value [String] returns "none"
    with one warning that carries the value as an integer, and [getRTCP]
    then gives [RTCP_NONE]. *)
Theorem RTCPFeedback_String_getRTCP (f : cmd.RTCPFeedback) :
  (0 <= f <= 3 ->
     snd (cmd.RTCPFeedback_String f) = [] /\
     cmd.getRTCP (fst (cmd.RTCPFeedback_String f)) = (f, []))
  /\ (f < 0 \/ 3 < f ->
      cmd.RTCPFeedback_String f =
        ("none"%string, [cmd.log_Printf cmd.unknown_feedback_format (cmd.arg_int f)]) /\
      cmd.getRTCP (fst (cmd.RTCPFeedback_String f)) = (cmd.RTCP_NONE, [])).
Proof.
  split.
  - intros Hf.
    assert (f = 0 \/ f = 1 \/ f = 2 \/ f = 3) as [->|[->|[->| ->]]] by lia; by split.
  - intros Hf. unfold cmd.RTCPFeedback_String, cmd.RTCP_NONE, cmd.RTCP_RFC8888,
      cmd.RTCP_RFC8888_PION, cmd.RTCP_TWCC.
    destruct (Z.eqb_spec f 0); [lia|]. destruct (Z.eqb_spec f 1); [lia|].
    destruct (Z.eqb_spec f 2); [lia|]. destruct (Z.eqb_spec f 3); [lia|]. by split.
Qed.

(** X17. [RTCPFeedback.String] after [getRTCP] gives back a feedback name
    unchanged and turns every other string into "none"; [String] itself
    never warns there, since [getRTCP] only returns defined values. *)
Theorem getRTCP_RTCPFeedback_String (s : string) :
  0 <= fst (cmd.getRTCP s) <= 3
  /\ cmd.RTCPFeedback_String (fst (cmd.getRTCP s)) =
       (if cmd.feedback_name s then s else "none"%string, []).
Proof.
  unfold cmd.getRTCP, cmd.feedback_name. cbn [existsb].
  destruct (String.eqb_spec s "none") as [->|_]; [split; [by cbv|reflexivity]|].
  destruct (String.eqb_spec s "rfc8888") as [->|_]; [split; [by cbv|reflexivity]|].
  destruct (String.eqb_spec s "rfc8888-pion") as [->|_]; [split; [by cbv|reflexivity]|].
  destruct (String.eqb_spec s "twcc") as [->|_]; [split; [by cbv|reflexivity]|].
  split; [by cbv|reflexivity].
Qed.

(** X18. [getServer] fails, with [errInvalidTransport], exactly on the
    strings that are none of its six names; "quic" and "quic-dgram" make
    the same call; and the caller's options reach the constructor
    unchanged, except for "quic-stream", which adds [MTU(1000000)] after
    them. *)
Theorem getServer_dispatch (MediaSinkFactory ServerOption : Type)
    (MTU : Z -> ServerOption) (transport : string) (mf : MediaSinkFactory)
    (options : list ServerOption) :
  (cmd.server_name transport = false <->
   cmd.getServer _ _ MTU transport mf options = inr cmd.errInvalidTransport)
  /\ cmd.getServer _ _ MTU "quic" mf options = cmd.getServer _ _ MTU "quic-dgram" mf options
  /\ (forall c, cmd.getServer _ _ MTU transport mf options = inl c ->
        cmd.call_options _ _ c =
          if String.eqb transport "quic-stream" then options ++ [MTU 1000000]
          else options).
Proof.
  split; [|split; [reflexivity|]]; unfold cmd.getServer, cmd.server_name; cbn [existsb].
  - destruct (String.eqb_spec transport "quic") as [->|_]; [by split|].
    destruct (String.eqb_spec transport "quic-dgram") as [->|_]; [by split|].
    destruct (String.eqb_spec transport "quic-stream") as [->|_]; [by split|].
    destruct (String.eqb_spec transport "quic-prio") as [->|_]; [by split|].
    destruct (String.eqb_spec transport "udp") as [->|_]; [by split|].
    destruct (String.eqb_spec transport "tcp") as [->|_]; by split.
  - intros c.
    destruct (String.eqb_spec transport "quic") as [->|_]; [by intros [= <-]|].
    destruct (String.eqb_spec transport "quic-dgram") as [->|_]; [by intros [= <-]|].
    destruct (String.eqb_spec transport "quic-stream") as [->|_]; [by intros [= <-]|].
    destruct (String.eqb_spec transport "quic-prio") as [->|_]; [by intros [= <-]|].
    destruct (String.eqb_spec transport "udp") as [->|_]; [by intros [= <-]|].
    destruct (String.eqb_spec transport "tcp") as [->|_]; [by intros [= <-]|].
    discriminate.
Qed.

End NamesFurther.

(** * The further properties on concrete inputs *)

Section FurtherScenarios.
Import Sample.

Lemma flow_writeWithCallBack_supported_witness :
  supports_callback (transport (set_transport flow7 (DgramPtr 0))) = true /\
  flow_writeWithCallBack (set_transport flow7 (DgramPtr 0)) [x01]
    (RTPFlow_ackCallback 1000 1 12 1) world0
  = (Returned (2, None),
     {| trace := [EvWriteWithAckLossCallback (DgramPtr 0) [x07; x01]
                    (RTPFlow_ackCallback 1000 1 12 1)];
        clock := 1000 |}).
Proof.
  split; [reflexivity|].
  exact (flow_writeWithCallBack_supported (set_transport flow7 (DgramPtr 0)) [x01]
           (RTPFlow_ackCallback 1000 1 12 1) world0 eq_refl).
Defined.

Lemma RTPFlow_Write_returns_transport_answer_witness :
  Header_Marshal header0 = inl header0_bytes /\
  Prioritize (prioritizer group_two_classes) header0 [x01; x02] = (1, marker_first) /\
  flows group_two_classes !! 1 = Some (set_transport flow5 (otherWriter 1)) /\
  localFeedback group_two_classes = None /\
  otherWriter 1 <> nilWriter /\
  RTPFlow_Write group_two_classes header0 [x01; x02] world0 =
    (Returned (15, None), group_two_classes,
     {| trace := [EvWrite (otherWriter 1) (x05 :: header0_bytes ++ [x01; x02])];
        clock := 1000 |}).
Proof.
  assert (Ht : otherWriter 1 <> nilWriter) by discriminate.
  do 4 (split; [reflexivity|]). split; [exact Ht|].
  exact (proj1 (RTPFlow_Write_returns_transport_answer group_two_classes header0
                  [x01; x02] world0 header0_bytes 1 marker_first
                  (set_transport flow5 (otherWriter 1)) eq_refl eq_refl eq_refl)
           eq_refl Ht).
Defined.

Lemma RTPFlow_Write_feedback_needs_callback_transport_witness :
  let g := RTPFlow_RunLocalFeedback group_two_classes 1 tt tt in
  Header_Marshal header0 = inl header0_bytes /\
  Prioritize (prioritizer g) header0 [x01] = (1, marker_first) /\
  flows g !! 1 = Some (set_transport flow5 (otherWriter 1)) /\
  is_Some (localFeedback g) /\
  supports_callback (otherWriter 1) = false /\
  RTPFlow_Write g header0 [x01] world0 = (Returned (0, Some errInvalidTransport), g, world0).
Proof.
  assert (Hg : is_Some (localFeedback (RTPFlow_RunLocalFeedback group_two_classes 1 tt tt)))
    by (by eexists).
  cbv zeta. do 3 (split; [reflexivity|]). split; [exact Hg|]. split; [reflexivity|].
  exact (RTPFlow_Write_feedback_needs_callback_transport
           (RTPFlow_RunLocalFeedback group_two_classes 1 tt tt) header0 [x01] world0
           header0_bytes 1 marker_first (set_transport flow5 (otherWriter 1))
           eq_refl eq_refl eq_refl Hg eq_refl).
Defined.

Lemma RTPFlow_Write_before_Bind_witness :
  freshly_created NewRTPFlow /\
  Header_Marshal header0 = inl header0_bytes /\
  RTPFlow_Write NewRTPFlow header0 [x01] world0 = (Panicked nilDereference, NewRTPFlow, world0) /\
  RTPFlow_Write (RTPFlow_RunLocalFeedback NewRTPFlow 1 tt tt) header0 [x01] world0 =
    (Returned (0, Some errInvalidTransport), RTPFlow_RunLocalFeedback NewRTPFlow 1 tt tt,
     world0).
Proof.
  assert (Hf : freshly_created NewRTPFlow) by (by left).
  split; [exact Hf|]. split; [reflexivity|].
  exact (RTPFlow_Write_before_Bind NewRTPFlow header0 [x01] world0 header0_bytes 1 tt tt
           Hf eq_refl).
Defined.

Lemma RTPFlow_Write_keeps_group_witness :
  let w' := {| trace := [EvWrite (otherWriter 1) (x05 :: header0_bytes ++ [x01; x02])];
               clock := 1000 |} in
  RTPFlow_Write group_two_classes header0 [x01; x02] world0 =
    (Returned (15, None), group_two_classes, w') /\
  flows group_two_classes = flows group_two_classes /\
  localFeedback group_two_classes = localFeedback group_two_classes /\
  clock w' = clock world0 /\
  (forall p, prioritizer group_two_classes = PrioritizerFunc p ->
             group_two_classes = group_two_classes).
Proof.
  cbv zeta. split; [reflexivity|].
  exact (RTPFlow_Write_keeps_group group_two_classes group_two_classes header0 [x01; x02]
           world0 _ (Returned (15, None)) eq_refl).
Defined.

Lemma RTPFlow_BindPriority_then_Write_witness :
  RTPFlow_BindPriority group_one_class 1 5 (otherWriter 1) = Returned group_two_classes /\
  Header_Marshal header0 = inl header0_bytes /\
  Prioritize (prioritizer group_one_class) header0 [x01; x02] = (1, marker_first) /\
  otherWriter 1 <> nilWriter /\
  exists enc, quicvarint_Write 5 = Some enc /\
    RTPFlow_Write group_two_classes header0 [x01; x02] world0 =
      (Returned (Write_result (otherWriter 1) (trace world0)
                   (enc ++ header0_bytes ++ [x01; x02])),
       group_two_classes,
       emit (EvWrite (otherWriter 1) (enc ++ header0_bytes ++ [x01; x02])) world0).
Proof.
  assert (Ht : otherWriter 1 <> nilWriter) by discriminate.
  do 3 (split; [reflexivity|]). split; [exact Ht|].
  destruct (RTPFlow_BindPriority_then_Write group_one_class group_two_classes 1 5
              (otherWriter 1) header0 [x01; x02] world0 header0_bytes marker_first
              eq_refl eq_refl eq_refl) as (enc & Henc & Hplain & _).
  exists enc. split; [exact Henc|]. exact (Hplain eq_refl Ht).
Defined.

Lemma RTPFlow_BindPriority_frame_witness :
  RTPFlow_BindPriority group_one_class 1 5 (otherWriter 1) = Returned group_two_classes /\
  (0 <> 1 -> flows group_two_classes !! 0 = flows group_one_class !! 0) /\
  prioritizer group_two_classes = prioritizer group_one_class.
Proof.
  destruct (RTPFlow_BindPriority_frame group_one_class group_two_classes 1 5
              (otherWriter 1) eq_refl) as (Hp & _ & Hk & _).
  split; [reflexivity|]. split; [exact (Hk 0)|exact Hp].
Defined.

Lemma RTPFlow_Bind_rebinds_default_witness :
  let g1 := {| prioritizer := marker_first;
               flows := <[ 0 := set_transport newFlow (DgramPtr 3) ]> (flows group_two_classes);
               localFeedback := None |} in
  RTPFlow_Bind group_two_classes (DgramPtr 3) = Returned g1 /\
  exists fl, flows group_two_classes !! 0 = Some fl /\
    flows g1 !! 0 = Some (set_transport fl (DgramPtr 3)) /\
    (forall k, k <> 0 -> flows g1 !! k = flows group_two_classes !! k) /\
    (forall t2, RTPFlow_Bind g1 t2 = RTPFlow_Bind group_two_classes t2).
Proof.
  cbv zeta. split; [reflexivity|].
  destruct (RTPFlow_Bind_rebinds_default group_two_classes _ (DgramPtr 3) eq_refl)
    as (fl & H0 & H1 & _ & Hk & _ & _ & H2).
  exists fl. split; [exact H0|]. split; [exact H1|]. split; [exact Hk|exact H2].
Defined.

Lemma RTPFlow_Bind_returns_witness :
  exists v g w',
    freshly_created NewRTPFlow /\
    run [OpBindPriority 0 9 (DgramPtr 1); OpSetPrioritizer marker_first] NewRTPFlow world0
      = (v, g, w') /\
    exists fl, flows g !! 0 = Some fl /\
      RTPFlow_Bind g (otherWriter 2) =
        Returned {| prioritizer := prioritizer g;
                    flows := <[ 0 := set_transport fl (otherWriter 2) ]> (flows g);
                    localFeedback := localFeedback g |}.
Proof.
  assert (Hf : freshly_created NewRTPFlow) by (by left).
  eexists _, _, _. split; [exact Hf|]. split; [reflexivity|].
  exact (RTPFlow_Bind_returns NewRTPFlow _
           [OpBindPriority 0 9 (DgramPtr 1); OpSetPrioritizer marker_first]
           world0 _ _ (otherWriter 2) Hf eq_refl).
Defined.

(** Three packets, the second never acknowledged. *)
Lemma notifications_acknowledged_witness :
  let f := RTPFlow_RunLocalFeedback NewRTPFlow 1 tt tt in
  let ns := [(RTPFlow_ackCallback 1000 1 12 1, true);
             (RTPFlow_ackCallback 1010 1 12 2, false);
             (RTPFlow_ackCallback 1020 1 12 3, true)] in
  localFeedback f = Some [] /\
  acknowledged [] ns = [ {| sentTS := 1000; ssrc := 1; size := 12; seqNr := 1 |};
                         {| sentTS := 1020; ssrc := 1; size := 12; seqNr := 3 |} ] /\
  run (notifications ns) f world0 =
    (None,
     {| prioritizer := prioritizer f; flows := flows f;
        localFeedback := Some (acknowledged [] ns) |}, world0).
Proof.
  cbv zeta. split; [reflexivity|]. split; [reflexivity|].
  exact (notifications_acknowledged (RTPFlow_RunLocalFeedback NewRTPFlow 1 tt tt) []
           _ world0 eq_refl).
Defined.

Lemma RTCPFlow_Write_unbound_witness :
  transport (rtcp_flow NewRTCPFlow) = nilWriter /\
  rtcp_Marshal packets_ok = inl [x80; xc9] /\
  RTCPFlow_Write NewRTCPFlow packets_ok world0 = (Panicked nilDereference, world0) /\
  rtcp_Marshal packets_bad = inr (foreignError "invalid header") /\
  RTCPFlow_Write NewRTCPFlow packets_bad world0
    = (Returned (0, Some (foreignError "invalid header")), world0).
Proof.
  destruct (RTCPFlow_Write_unbound NewRTCPFlow packets_ok world0 eq_refl) as [Hok _].
  destruct (RTCPFlow_Write_unbound NewRTCPFlow packets_bad world0 eq_refl) as [_ Hbad].
  split; [reflexivity|]. split; [reflexivity|]. split; [exact (Hok _ eq_refl)|].
  split; [reflexivity|exact (Hbad _ eq_refl)].
Defined.

Lemma run_writes_only_to_bound_transports_witness :
  let ops := [OpBind (DgramPtr 0); OpWrite header0 [x01];
              OpBindPriority 1 5 (otherWriter 1); OpWrite header0 [x02]] in
  exists v g w,
    freshly_created NewRTPFlow /\
    run ops NewRTPFlow world0 = (v, g, w) /\
    exists evs, trace w = trace world0 ++ evs /\ (length evs <= count_writes ops)%nat /\
      Forall (fun e => In (event_transport e) (bound_transports ops) /\
                       event_transport e <> nilWriter) evs.
Proof.
  assert (Hf : freshly_created NewRTPFlow) by (by left).
  cbv zeta. eexists _, _, _. split; [exact Hf|]. split; [reflexivity|].
  exact (run_writes_only_to_bound_transports NewRTPFlow _
           [OpBind (DgramPtr 0); OpWrite header0 [x01];
            OpBindPriority 1 5 (otherWriter 1); OpWrite header0 [x02]]
           world0 _ _ Hf eq_refl).
Defined.

Lemma default_policy_never_misses_witness :
  let ops := [OpBind (DgramPtr 0); OpWrite header0 [x01];
              OpBindPriority 1 5 (otherWriter 1); OpWrite header0 [x02]] in
  exists v g w,
    freshly_created NewRTPFlow /\
    Forall (fun o => is_SetPrioritizer o = false) ops /\
    run ops NewRTPFlow world0 = (v, g, w) /\
    prioritizer g = defaultPriorityFunc /\ forall k, v <> Some (noFlowWithPrio k).
Proof.
  assert (Hf : freshly_created NewRTPFlow) by (by left).
  assert (Hops : Forall (fun o => is_SetPrioritizer o = false)
                   [OpBind (DgramPtr 0); OpWrite header0 [x01];
                    OpBindPriority 1 5 (otherWriter 1); OpWrite header0 [x02]])
    by (by repeat constructor).
  cbv zeta. eexists _, _, _. split; [exact Hf|]. split; [exact Hops|].
  split; [reflexivity|].
  exact (default_policy_never_misses NewRTPFlow _ _ world0 _ _ Hf Hops eq_refl).
Defined.

End FurtherScenarios.
